(** * OptionScope deployment script (deploy.py): a shallow embedding

    The script is interactive glue: it prompts the operator, shells out to
    platform command-line tools, calls the billing provider and prints
    status lines.  The embedding makes the outside world explicit:

    - a [world] holds what the environment will answer (the lines typed on
      standard input, the outcome of every external command, the outcome of
      every billing-provider call, the bytes of the system random source);
    - a [state] threads the world through a run together with the log of
      everything the script did (lines printed, prompts shown, commands
      run, provider calls made, files written);
    - a computation [M A] either returns a value or raises a Python
      exception, exactly where the source does.

    Python [str] values are modelled as [string], the bytes of the text.
    The built-in methods [str.strip], [str.lower] and [str.title] depend on
    the Unicode tables of the interpreter; they are taken as an interface
    ([PyStr.Builtins]), so that every general statement holds of Python's
    own functions.  An instance that agrees with them on ASCII text serves
    the concrete runs. *)

From Stdlib Require Import String Ascii List ZArith Bool Arith Lia.
From Stdlib Require Import DecimalString.
Import ListNotations.
Open Scope string_scope.

(** ** Python string methods used by the script *)

Module PyStr.

Definition nl : string := String (ascii_of_nat 10) EmptyString.

Definition code (c : ascii) : nat := nat_of_ascii c.

(** [str.isspace] on one character of the ASCII range: TAB, LF, VT, FF,
    CR, the four separators 0x1c-0x1f and the space. *)
Definition is_space (c : ascii) : bool :=
  let n := code c in
  (((9 <=? n) && (n <=? 13)) || ((28 <=? n) && (n <=? 31)) || (n =? 32))%nat.

Definition is_upper (c : ascii) : bool :=
  let n := code c in ((65 <=? n) && (n <=? 90))%nat.

Definition is_lower (c : ascii) : bool :=
  let n := code c in ((97 <=? n) && (n <=? 122))%nat.

Definition is_cased (c : ascii) : bool := is_upper c || is_lower c.

Definition to_lower (c : ascii) : ascii :=
  if is_upper c then ascii_of_nat (code c + 32) else c.

Definition to_upper (c : ascii) : ascii :=
  if is_lower c then ascii_of_nat (code c - 32) else c.

(** [s.lower()] on ASCII text *)
Fixpoint ascii_lower (s : string) : string :=
  match s with
  | EmptyString => EmptyString
  | String c r => String (to_lower c) (ascii_lower r)
  end.

(** [s.title()] on ASCII text: a cased character that follows an uncased
    one (or starts the string) is upper-cased, every other cased character
    is lower-cased. *)
Fixpoint title_from (prev_cased : bool) (s : string) : string :=
  match s with
  | EmptyString => EmptyString
  | String c r =>
      if is_cased c
      then String (if prev_cased then to_lower c else to_upper c) (title_from true r)
      else String c (title_from false r)
  end.

Definition ascii_title (s : string) : string := title_from false s.

(** [s.lstrip()], [s.rstrip()] and [s.strip()] with no argument, on ASCII
    text. *)
Fixpoint lstrip (s : string) : string :=
  match s with
  | EmptyString => EmptyString
  | String c r => if is_space c then lstrip r else s
  end.

Fixpoint rstrip (s : string) : string :=
  match s with
  | EmptyString => EmptyString
  | String c r =>
      match rstrip r with
      | EmptyString => if is_space c then EmptyString else String c EmptyString
      | r' => String c r'
      end
  end.

Definition ascii_strip (s : string) : string := rstrip (lstrip s).

(** [sub in s] *)
Fixpoint contains (sub s : string) : bool :=
  if prefix sub s then true
  else match s with
       | EmptyString => false
       | String _ r => contains sub r
       end.

(** [s.split(sep)] for a non-empty separator: the pieces between the
    non-overlapping occurrences of [sep], scanned from the left.  [acc]
    is the current piece; [skip] counts the characters of a
    separator just matched that are still to be passed over. *)
Fixpoint split_go (sep : string) (skip : nat) (acc : string) (s : string)
  : list string :=
  match s with
  | EmptyString => [acc]
  | String c r =>
      match skip with
      | S k => split_go sep k acc r
      | O =>
          if prefix sep s
          then acc :: split_go sep (String.length sep - 1) EmptyString r
          else split_go sep 0 (acc ++ String c EmptyString) r
      end
  end.

Definition split (sep s : string) : list string := split_go sep 0 EmptyString s.

(** [sep.join(l)] *)
Fixpoint join (sep : string) (l : list string) : string :=
  match l with
  | [] => EmptyString
  | [x] => x
  | x :: r => x ++ sep ++ join sep r
  end.

(** Truth value of a string: [if s:] *)
Definition truthy (s : string) : bool :=
  match s with EmptyString => false | _ => true end.

Definition of_Z (z : Z) : string := NilZero.string_of_int (Z.to_int z).

(** A character of the ASCII range that is visible: neither a control
    character nor white space. *)
Definition is_graphic (c : ascii) : bool :=
  let n := code c in ((33 <=? n) && (n <=? 126))%nat.

(** The built-in string methods whose result depends on the Unicode tables
    of the interpreter.  The one fact assumed of them: stripping a text
    that holds a visible ASCII character does not give the empty text. *)
Class Builtins : Type := {
  strip : string -> string;
  lower : string -> string;
  title : string -> string;
  strip_graphic :
    forall (pre : string) (c : ascii) (post : string),
      is_graphic c = true -> strip (pre ++ String c post) <> EmptyString
}.

End PyStr.

(** ** Python dictionaries with string keys

    A [dict] keeps its keys in insertion order, and the script iterates over
    [env_vars.items()] to push one secret after the other, so the order is
    part of the behaviour: an association list without duplicate keys. *)

Module Dict.

Definition t : Type := list (string * string).

Definition empty : t := [].

(** [d[k] = v]: overwrite in place, or append a new entry. *)
Fixpoint set (k v : string) (d : t) : t :=
  match d with
  | [] => [(k, v)]
  | (k', v') :: r =>
      if String.eqb k k' then (k', v) :: r else (k', v') :: set k v r
  end.

(** [d.get(k)] *)
Fixpoint get (k : string) (d : t) : option string :=
  match d with
  | [] => None
  | (k', v') :: r => if String.eqb k k' then Some v' else get k r
  end.

(** [k in d] *)
Definition mem (k : string) (d : t) : bool :=
  match get k d with Some _ => true | None => false end.

(** [d.update({k1: v1, ...})], the pairs taken left to right. *)
Definition update (kvs : list (string * string)) (d : t) : t :=
  fold_left (fun acc kv => set (fst kv) (snd kv) acc) kvs d.

Definition items (d : t) : list (string * string) := d.

Definition keys (d : t) : list string := map fst d.

Definition values (d : t) : list string := map snd d.

End Dict.

(** ** [secrets.token_urlsafe]

    The standard library computes
    [base64.urlsafe_b64encode(os.urandom(n)).rstrip(b'=').decode('ascii')]. *)

Module Secrets.

Definition alphabet : string :=
  "ABCDEFGHIJKLMNOPQRSTUVWXYZabcdefghijklmnopqrstuvwxyz0123456789-_".

Definition pad : ascii := "="%char.

(** The character of a 6-bit group. *)
Definition sextet (i : Z) : ascii :=
  match String.get (Z.to_nat i) alphabet with
  | Some c => c
  | None => pad
  end.

Definition byte_val (b : Byte.byte) : Z := Z.of_N (Byte.to_N b).

(** Three bytes give four characters; a tail of one byte gives two
    characters and a tail of two bytes three, the [=] padding of the
    standard encoding being stripped. *)
Fixpoint b64_nopad (bs : list Byte.byte) : string :=
  match bs with
  | [] => EmptyString
  | [a] =>
      let x := byte_val a in
      String (sextet (Z.shiftr x 2))
        (String (sextet (Z.shiftl (Z.land x 3) 4)) EmptyString)
  | [a; b] =>
      let x := byte_val a in
      let y := byte_val b in
      String (sextet (Z.shiftr x 2))
        (String (sextet (Z.lor (Z.shiftl (Z.land x 3) 4) (Z.shiftr y 4)))
           (String (sextet (Z.shiftl (Z.land y 15) 2)) EmptyString))
  | a :: b :: c :: r =>
      let x := byte_val a in
      let y := byte_val b in
      let z := byte_val c in
      String (sextet (Z.shiftr x 2))
        (String (sextet (Z.lor (Z.shiftl (Z.land x 3) 4) (Z.shiftr y 4)))
           (String (sextet (Z.lor (Z.shiftl (Z.land y 15) 2) (Z.shiftr z 6)))
              (String (sextet (Z.land z 63)) (b64_nopad r))))
  end.

(** Characters that need no escaping in a URL: the base64url alphabet. *)
Definition url_safe_char (c : ascii) : bool :=
  let n := nat_of_ascii c in
  (((65 <=? n) && (n <=? 90)) || ((97 <=? n) && (n <=? 122))
   || ((48 <=? n) && (n <=? 57)) || (n =? 45) || (n =? 95))%nat.

Fixpoint url_safe (s : string) : bool :=
  match s with
  | EmptyString => true
  | String c r => url_safe_char c && url_safe r
  end.

End Secrets.

(** ** JSON values, [json.dump(obj, f, indent=2)] and a JSON reader

    [encode] follows the standard library's encoder with its defaults under
    an indent: [','] between items, [': '] after a key, every item on a
    line of its own, ["[]"] and ["{}"] for empty containers, and the ASCII
    escapes of [ensure_ascii].  [loads] is a reader for the JSON grammar
    (RFC 8259) restricted to integer numbers; it accepts nothing that the
    grammar rejects. *)

Module Json.

#[local] Set Warnings "-register-all".

Inductive value : Type :=
| Null
| Bool (b : bool)
| Int (z : Z)
| Str (s : string)
| Arr (items : list value)
| Obj (members : list (string * value)).

(** *** Encoder *)

Definition hex_digit (n : nat) : ascii :=
  match String.get n "0123456789abcdef" with
  | Some c => c
  | None => "0"%char
  end.

Definition escape_char (c : ascii) : string :=
  let n := nat_of_ascii c in
  if (n =? 34)%nat then "\" ++ String c EmptyString
  else if (n =? 92)%nat then "\\"
  else if (n =? 8)%nat then "\b"
  else if (n =? 12)%nat then "\f"
  else if (n =? 10)%nat then "\n"
  else if (n =? 13)%nat then "\r"
  else if (n =? 9)%nat then "\t"
  else if ((32 <=? n) && (n <=? 126))%nat then String c EmptyString
  else "\u00" ++ String (hex_digit (n / 16)) (String (hex_digit (n mod 16)) EmptyString).

Fixpoint escape (s : string) : string :=
  match s with
  | EmptyString => EmptyString
  | String c r => escape_char c ++ escape r
  end.

Definition quote : string := String (ascii_of_nat 34) EmptyString.

Definition encode_string (s : string) : string := quote ++ escape s ++ quote.

Fixpoint spaces (n : nat) : string :=
  match n with
  | O => EmptyString
  | S k => String " "%char (spaces k)
  end.

Definition newline_indent (indent level : nat) : string :=
  PyStr.nl ++ spaces (indent * level).

Fixpoint encode (indent level : nat) (v : value) : string :=
  match v with
  | Null => "null"
  | Bool true => "true"
  | Bool false => "false"
  | Int z => PyStr.of_Z z
  | Str s => encode_string s
  | Arr [] => "[]"
  | Arr (x :: r) =>
      "[" ++ newline_indent indent (S level) ++ encode indent (S level) x
      ++ (fix rest (l : list value) : string :=
            match l with
            | [] => EmptyString
            | y :: l' =>
                "," ++ newline_indent indent (S level)
                ++ encode indent (S level) y ++ rest l'
            end) r
      ++ newline_indent indent level ++ "]"
  | Obj [] => "{}"
  | Obj ((k, x) :: r) =>
      "{" ++ newline_indent indent (S level)
      ++ encode_string k ++ ": " ++ encode indent (S level) x
      ++ (fix rest (l : list (string * value)) : string :=
            match l with
            | [] => EmptyString
            | (k', y) :: l' =>
                "," ++ newline_indent indent (S level)
                ++ encode_string k' ++ ": " ++ encode indent (S level) y ++ rest l'
            end) r
      ++ newline_indent indent level ++ "}"
  end.

(** [json.dumps(v, indent=n)] *)
Definition dumps (indent : nat) (v : value) : string := encode indent 0 v.

(** *** Reader *)

Definition is_ws (c : ascii) : bool :=
  let n := nat_of_ascii c in
  ((n =? 32) || (n =? 9) || (n =? 10) || (n =? 13))%nat.

Fixpoint skip_ws (s : list ascii) : list ascii :=
  match s with
  | c :: r => if is_ws c then skip_ws r else s
  | [] => []
  end.

Definition digit_val (c : ascii) : option Z :=
  let n := nat_of_ascii c in
  if ((48 <=? n) && (n <=? 57))%nat then Some (Z.of_nat (n - 48)) else None.

Definition hex_val (c : ascii) : option nat :=
  let n := nat_of_ascii c in
  if ((48 <=? n) && (n <=? 57))%nat then Some (n - 48)
  else if ((97 <=? n) && (n <=? 102))%nat then Some (n - 87)
  else if ((65 <=? n) && (n <=? 70))%nat then Some (n - 55)
  else None.

(** Digits after the first one of a number. *)
Fixpoint read_digits (acc : Z) (s : list ascii) : Z * list ascii :=
  match s with
  | c :: r =>
      match digit_val c with
      | Some d => read_digits (10 * acc + d) r
      | None => (acc, s)
      end
  | [] => (acc, [])
  end.

(** [int = zero / (digit1-9 *DIGIT)]; a fraction or an exponent is not
    read. *)
Definition read_nat (s : list ascii) : option (Z * list ascii) :=
  match s with
  | c :: r =>
      match digit_val c with
      | Some 0%Z =>
          match r with
          | c' :: _ => match digit_val c' with Some _ => None | None => Some (0%Z, r) end
          | [] => Some (0%Z, r)
          end
      | Some d => Some (read_digits d r)
      | None => None
      end
  | [] => None
  end.

Definition ends_number (s : list ascii) : bool :=
  match s with
  | c :: _ =>
      let n := nat_of_ascii c in
      negb ((n =? 46) || (n =? 101) || (n =? 69))%nat
  | [] => true
  end.

(** The characters of a string after its opening quote, up to and
    including its closing quote. *)
Fixpoint read_string (fuel : nat) (s : list ascii) : option (string * list ascii) :=
  match fuel with
  | O => None
  | S f =>
      match s with
      | [] => None
      | c :: r =>
          let n := nat_of_ascii c in
          if (n =? 34)%nat then Some (EmptyString, r)
          else if (n <? 32)%nat then None
          else if (n =? 92)%nat then
            match r with
            | e :: r' =>
                let m := nat_of_ascii e in
                let simple (x : nat) :=
                  match read_string f r' with
                  | Some (t, r'') => Some (String (ascii_of_nat x) t, r'')
                  | None => None
                  end in
                if (m =? 34)%nat then simple 34%nat
                else if (m =? 92)%nat then simple 92%nat
                else if (m =? 47)%nat then simple 47%nat
                else if (m =? 98)%nat then simple 8%nat
                else if (m =? 102)%nat then simple 12%nat
                else if (m =? 110)%nat then simple 10%nat
                else if (m =? 114)%nat then simple 13%nat
                else if (m =? 116)%nat then simple 9%nat
                else if (m =? 117)%nat then
                  match r' with
                  | h1 :: h2 :: h3 :: h4 :: r'' =>
                      match hex_val h1, hex_val h2, hex_val h3, hex_val h4 with
                      | Some 0%nat, Some 0%nat, Some a, Some b =>
                          match read_string f r'' with
                          | Some (t, r3) => Some (String (ascii_of_nat (16 * a + b)) t, r3)
                          | None => None
                          end
                      | _, _, _, _ => None
                      end
                  | _ => None
                  end
                else None
            | [] => None
            end
          else
            match read_string f r with
            | Some (t, r') => Some (String c t, r')
            | None => None
            end
      end
  end.

Definition starts (lit : string) (s : list ascii) : option (list ascii) :=
  let l := list_ascii_of_string lit in
  if list_eq_dec ascii_dec (firstn (List.length l) s) l
  then Some (skipn (List.length l) s) else None.

Fixpoint read_value (fuel : nat) (s : list ascii) : option (value * list ascii) :=
  match fuel with
  | O => None
  | S f =>
      match skip_ws s with
      | [] => None
      | c :: r =>
          let n := nat_of_ascii c in
          if (n =? 34)%nat then
            match read_string (S (List.length r)) r with
            | Some (t, r') => Some (Str t, r')
            | None => None
            end
          else if (n =? 91)%nat then
            match skip_ws r with
            | c' :: r' =>
                if (nat_of_ascii c' =? 93)%nat then Some (Arr [], r')
                else match read_items f r with
                     | Some (vs, r'') => Some (Arr vs, r'')
                     | None => None
                     end
            | [] => None
            end
          else if (n =? 123)%nat then
            match skip_ws r with
            | c' :: r' =>
                if (nat_of_ascii c' =? 125)%nat then Some (Obj [], r')
                else match read_members f r with
                     | Some (ms, r'') => Some (Obj ms, r'')
                     | None => None
                     end
            | [] => None
            end
          else if (n =? 45)%nat then
            match read_nat r with
            | Some (z, r') => if ends_number r' then Some (Int (- z), r') else None
            | None => None
            end
          else
            match starts "null" (c :: r), starts "true" (c :: r), starts "false" (c :: r) with
            | Some r', _, _ => Some (Null, r')
            | _, Some r', _ => Some (Bool true, r')
            | _, _, Some r' => Some (Bool false, r')
            | None, None, None =>
                match read_nat (c :: r) with
                | Some (z, r') => if ends_number r' then Some (Int z, r') else None
                | None => None
                end
            end
      end
  end

(** One or more values separated by commas, then the closing bracket. *)
with read_items (fuel : nat) (s : list ascii) : option (list value * list ascii) :=
  match fuel with
  | O => None
  | S f =>
      match read_value f s with
      | Some (v, r) =>
          match skip_ws r with
          | c :: r' =>
              if (nat_of_ascii c =? 44)%nat then
                match read_items f r' with
                | Some (vs, r'') => Some (v :: vs, r'')
                | None => None
                end
              else if (nat_of_ascii c =? 93)%nat then Some ([v], r')
              else None
          | [] => None
          end
      | None => None
      end
  end

(** One or more [string : value] members separated by commas, then the
    closing brace. *)
with read_members (fuel : nat) (s : list ascii)
  : option (list (string * value) * list ascii) :=
  match fuel with
  | O => None
  | S f =>
      match skip_ws s with
      | q :: r =>
          if (nat_of_ascii q =? 34)%nat then
            match read_string (S (List.length r)) r with
            | Some (k, r1) =>
                match skip_ws r1 with
                | colon :: r2 =>
                    if (nat_of_ascii colon =? 58)%nat then
                      match read_value f r2 with
                      | Some (v, r3) =>
                          match skip_ws r3 with
                          | c :: r4 =>
                              if (nat_of_ascii c =? 44)%nat then
                                match read_members f r4 with
                                | Some (ms, r5) => Some ((k, v) :: ms, r5)
                                | None => None
                                end
                              else if (nat_of_ascii c =? 125)%nat then Some ([(k, v)], r4)
                              else None
                          | [] => None
                          end
                      | None => None
                      end
                    else None
                | [] => None
                end
            | None => None
            end
          else None
      | [] => None
      end
  end.

(** A JSON text is one value, with optional white space around it. *)
Definition loads (s : string) : option value :=
  let l := list_ascii_of_string s in
  match read_value (2 * List.length l + 2) l with
  | Some (v, r) => match skip_ws r with [] => Some v | _ => None end
  | None => None
  end.

Definition well_formed (s : string) : bool :=
  match loads s with Some _ => true | None => false end.

(** [obj[k]] on an object, [None] on anything else or a missing key. *)
Definition field (k : string) (v : value) : option value :=
  match v with
  | Obj ms =>
      (fix find (l : list (string * value)) : option value :=
         match l with
         | [] => None
         | (k', x) :: l' => if String.eqb k k' then Some x else find l'
         end) ms
  | _ => None
  end.

End Json.

(** ** The outside world, the run state and the computation monad *)

(** [subprocess.CompletedProcess].  [stdout] and [stderr] hold the captured
    text; the script reads them only after [capture_output=True]. *)
Record completed : Type := mkCompleted {
  returncode : Z;
  stdout : string;
  stderr : string
}.

(** What an external command does: the program is missing, or it runs and
    exits with a status and its two output streams. *)
Inductive proc_outcome : Type :=
| NotFound
| Exited (rc : Z) (out err : string).

(** The two billing-provider calls of the script:
    [stripe.Product.create(name=, description=)] and
    [stripe.Price.create(product=, unit_amount=, currency=, recurring={'interval': })]. *)
Inductive provider_request : Type :=
| ProductCreate (name description : string)
| PriceCreate (product : string) (unit_amount : Z) (currency interval : string).

(** A provider call returns an object with an [id], or raises. *)
Inductive provider_outcome : Type :=
| Created (id : string)
| Failed (message : string).

(** The four deploy routines, the values of the [platforms] table. *)
Inductive routine : Type := Vercel | Heroku | Railway | Render.

(** The exceptions that the modelled calls raise. *)
Inductive exn : Type :=
| CalledProcessError (rc : Z) (cmd : list string)
| FileNotFoundError (cmd : list string)
| EOFError
| ModuleNotFoundError (name : string)
| ProviderError (message : string).

Record world : Type := mkWorld {
  stdin : list string;
  (** the i-th byte ever read from [os.urandom] *)
  urandom : nat -> Byte.byte;
  (** the outcome of the n-th external command of the run *)
  subprocess : nat -> list string -> proc_outcome;
  (** the outcome of the n-th billing-provider call of the run *)
  provider : nat -> provider_request -> provider_outcome;
  (** the third-party modules that can be imported *)
  installed : string -> bool
}.

Inductive event : Type :=
| Printed (line : string)
| Prompted (prompt : string)
| Ran (argv : list string) (input : option string) (outcome : proc_outcome)
| ApiKeySet (key : string)
| Requested (req : provider_request) (outcome : provider_outcome)
| Wrote (path content : string)
| Entered (r : routine).

(** [log] is kept newest first; [history] reads it in program order. *)
Record state : Type := mkState {
  env : world;
  unread : list string;
  drawn : nat;
  spawned : nat;
  requested : nat;
  log : list event
}.

Definition boot (w : world) : state :=
  mkState w (stdin w) 0 0 0 [].

Definition history (s : state) : list event := rev (log s).

Definition record (e : event) (s : state) : state :=
  mkState (env s) (unread s) (drawn s) (spawned s) (requested s) (e :: log s).

Inductive result (A : Type) : Type :=
| Returned (a : A)
| Raised (e : exn).

Arguments Returned {A} a.
Arguments Raised {A} e.

Definition M (A : Type) : Type := state -> result A * state.

Definition ret {A} (a : A) : M A := fun s => (Returned a, s).

Definition raise {A} (e : exn) : M A := fun s => (Raised e, s).

Definition bind {A B} (c : M A) (k : A -> M B) : M B :=
  fun s =>
    match c s with
    | (Returned a, s') => k a s'
    | (Raised e, s') => (Raised e, s')
    end.

Declare Scope py_scope.
Delimit Scope py_scope with py.
Notation "x <- c ;; k" := (bind c (fun x => k))
  (at level 61, c at next level, right associativity) : py_scope.
Notation "c ;; k" := (bind c (fun _ => k))
  (at level 61, right associativity) : py_scope.
Open Scope py_scope.

(** [try: body except Exception as e: handler(e)] *)
Definition try_except {A} (body : M A) (handler : exn -> M A) : M A :=
  fun s =>
    match body s with
    | (Returned a, s') => (Returned a, s')
    | (Raised e, s') => handler e s'
    end.

(** [for x in l: body(x)] *)
Fixpoint for_each {A} (l : list A) (body : A -> M unit) : M unit :=
  match l with
  | [] => ret tt
  | x :: r => body x ;; for_each r body
  end.

(** [print(line)] *)
Definition print (line : string) : M unit :=
  fun s => (Returned tt, record (Printed line) s).

(** [input(prompt)]: the prompt is written, then one line is read; at end
    of input Python raises [EOFError]. *)
Definition input (prompt : string) : M string :=
  fun s =>
    let s1 := record (Prompted prompt) s in
    match unread s1 with
    | [] => (Raised EOFError, s1)
    | line :: rest =>
        (Returned line,
         mkState (env s1) rest (drawn s1) (spawned s1) (requested s1) (log s1))
    end.

(** [subprocess.run(argv, input=, check=, capture_output=)] *)
Definition run (argv : list string) (inp : option string) (check capture : bool)
  : M completed :=
  fun s =>
    let o := subprocess (env s) (spawned s) argv in
    let s1 :=
      mkState (env s) (unread s) (drawn s) (S (spawned s)) (requested s)
        (Ran argv inp o :: log s) in
    match o with
    | NotFound => (Raised (FileNotFoundError argv), s1)
    | Exited rc out err =>
        if check && negb (rc =? 0)%Z
        then (Raised (CalledProcessError rc argv), s1)
        else (Returned
                (if capture then mkCompleted rc out err
                 else mkCompleted rc EmptyString EmptyString), s1)
    end.

(** [os.urandom(n)] *)
Definition os_urandom (n : nat) : M (list Byte.byte) :=
  fun s =>
    (Returned (map (urandom (env s)) (seq (drawn s) n)),
     mkState (env s) (unread s) (drawn s + n) (spawned s) (requested s) (log s)).

(** A call to the billing provider: the [id] of the created object, or the
    provider's exception. *)
Definition provider_call (req : provider_request) : M string :=
  fun s =>
    let o := provider (env s) (requested s) req in
    let s1 :=
      mkState (env s) (unread s) (drawn s) (spawned s) (S (requested s))
        (Requested req o :: log s) in
    match o with
    | Created id => (Returned id, s1)
    | Failed m => (Raised (ProviderError m), s1)
    end.

(** [import name] of a third-party module, inside a function. *)
Definition import_module (name : string) : M unit :=
  fun s =>
    if installed (env s) name then (Returned tt, s)
    else (Raised (ModuleNotFoundError name), s).

(** [stripe.api_key = key] *)
Definition set_api_key (key : string) : M unit :=
  fun s => (Returned tt, record (ApiKeySet key) s).

(** [with open(path, 'w') as f: f.write(content)] *)
Definition write_file (path content : string) : M unit :=
  fun s => (Returned tt, record (Wrote path content) s).

(** Ghost step: a deploy routine's body starts. *)
Definition enter (r : routine) : M unit :=
  fun s => (Returned tt, record (Entered r) s).

(** [str(e)].  The quoting of an argument list is Python's [repr] for
    arguments without quotes or backslashes. *)
Definition repr_str (s : string) : string := "'" ++ s ++ "'".

Definition repr_list (l : list string) : string :=
  "[" ++ PyStr.join ", " (map repr_str l) ++ "]".

Definition exn_str (e : exn) : string :=
  match e with
  | CalledProcessError rc cmd =>
      "Command '" ++ repr_list cmd ++ "' returned non-zero exit status "
      ++ PyStr.of_Z rc ++ "."
  | FileNotFoundError cmd =>
      "[Errno 2] No such file or directory: " ++ repr_str (hd EmptyString cmd)
  | EOFError => "EOF when reading a line"
  | ModuleNotFoundError name => "No module named " ++ repr_str name
  | ProviderError m => m
  end.

(** [f"{url}"] for a value that is [None] or a string. *)
Definition fmt (url : option string) : string :=
  match url with
  | Some u => u
  | None => "None"
  end.

(** [if url:] *)
Definition truthy_opt (url : option string) : bool :=
  match url with
  | Some u => PyStr.truthy u
  | None => false
  end.

(** The first line of the text for which [pick] answers. *)
Fixpoint first_match (pick : string -> option string) (lines : list string)
  : option string :=
  match lines with
  | [] => None
  | l :: r =>
      match pick l with
      | Some u => Some u
      | None => first_match pick r
      end
  end.

(** ** The script

    The module-level imports of the file are taken to have succeeded:
    without them no function of the script can be called. *)

Section Script.

Context {py : PyStr.Builtins}.

(** A value is pushed to a platform when
    [value and value != 'your-key-here']. *)
Definition pushable (value : string) : bool :=
  PyStr.truthy value && negb (String.eqb value "your-key-here").

(** [secrets.token_urlsafe(nbytes)] *)
Definition token_urlsafe (nbytes : nat) : M string :=
  tok <- os_urandom nbytes ;;
  ret (Secrets.b64_nopad tok).

(** [generate_secret_key]; its [import secrets] is of the standard
    library. *)
Definition generate_secret_key : M string := token_urlsafe 32.

(** [get_production_env_vars] *)
Definition get_production_env_vars : M Dict.t :=
  let env_vars := Dict.empty in
  print (PyStr.nl ++ "💰 Setting up monetization (Stripe)...") ;;
  print "Get your Stripe keys from: https://dashboard.stripe.com/apikeys" ;;
  l1 <- input "Stripe Publishable Key (pk_live_...): " ;;
  let stripe_publishable := PyStr.strip l1 in
  l2 <- input "Stripe Secret Key (sk_live_...): " ;;
  let stripe_secret := PyStr.strip l2 in
  l3 <- input "Stripe Webhook Secret (whsec_...): " ;;
  let stripe_webhook := PyStr.strip l3 in
  secret_key <- generate_secret_key ;;
  let env_vars :=
    Dict.update
      [ ("FLASK_ENV", "production");
        ("SECRET_KEY", secret_key);
        ("STRIPE_PUBLISHABLE_KEY", stripe_publishable);
        ("STRIPE_SECRET_KEY", stripe_secret);
        ("STRIPE_WEBHOOK_SECRET", stripe_webhook) ]
      env_vars in
  print (PyStr.nl ++ "📊 Optional: Market Data API Keys (press Enter to skip)") ;;
  l4 <- input "Alpha Vantage API Key: " ;;
  let alpha_vantage := PyStr.strip l4 in
  l5 <- input "IEX Cloud API Key: " ;;
  let iex_key := PyStr.strip l5 in
  let env_vars :=
    if PyStr.truthy alpha_vantage
    then Dict.set "ALPHA_VANTAGE_API_KEY" alpha_vantage env_vars
    else env_vars in
  let env_vars :=
    if PyStr.truthy iex_key
    then Dict.set "IEX_API_KEY" iex_key env_vars
    else env_vars in
  ret env_vars.

(** The probe [subprocess.run([tool, '--version'], check=True,
    capture_output=True)] under
    [except (subprocess.CalledProcessError, FileNotFoundError)]. *)
Definition probe_cli (tool : string) (missing : M unit) : M unit :=
  try_except
    (run [tool; "--version"] None true true ;; ret tt)
    (fun e =>
       match e with
       | CalledProcessError _ _ | FileNotFoundError _ => missing
       | _ => raise e
       end).

Definition vercel_url_line (line : string) : option string :=
  if PyStr.contains "https://" line && PyStr.contains "vercel.app" line
  then Some (PyStr.strip line) else None.

(** [deploy_vercel] *)
Definition deploy_vercel : M (option string) :=
  enter Vercel ;;
  print "🚀 Deploying OptionScope to Vercel..." ;;
  probe_cli "vercel"
    (print "❌ Vercel CLI not found. Installing..." ;;
     run ["npm"; "install"; "-g"; "vercel"] None true false ;; ret tt) ;;
  run ["cp"; "requirements-vercel.txt"; "requirements.txt"] None true false ;;
  env_vars <- get_production_env_vars ;;
  print "📝 Setting up environment variables..." ;;
  for_each (Dict.items env_vars)
    (fun kv =>
       if pushable (snd kv)
       then run ["vercel"; "env"; "add"; fst kv] (Some (snd kv)) true false ;; ret tt
       else ret tt) ;;
  print "🚀 Deploying to Vercel..." ;;
  result <- run ["vercel"; "--prod"] None false true ;;
  if (returncode result =? 0)%Z then
    let lines := PyStr.split PyStr.nl (stdout result) in
    let url := first_match vercel_url_line lines in
    print "✅ Deployment successful!" ;;
    print ("🌐 Your OptionScope is live at: " ++ fmt url) ;;
    print ("💰 Set up Stripe webhooks at: " ++ fmt url ++ "/auth/webhook/stripe") ;;
    ret url
  else
    print ("❌ Deployment failed: " ++ stderr result) ;;
    ret None.

Definition heroku_url_line (line : string) : option string :=
  if PyStr.contains "Web URL:" line
  then Some (PyStr.strip (nth 1 (PyStr.split "Web URL:" line) EmptyString))
  else None.

(** [deploy_heroku] *)
Definition deploy_heroku : M (option string) :=
  enter Heroku ;;
  print "🚀 Deploying OptionScope to Heroku..." ;;
  found <-
    try_except
      (run ["heroku"; "--version"] None true true ;; ret true)
      (fun e =>
         match e with
         | CalledProcessError _ _ | FileNotFoundError _ =>
             print "❌ Heroku CLI not found. Please install it first." ;;
             ret false
         | _ => raise e
         end) ;;
  if negb found then ret None else
  l <- input "Enter Heroku app name (or press Enter for auto-generated): " ;;
  let app_name := PyStr.strip l in
  (if PyStr.truthy app_name
   then run ["heroku"; "create"; app_name] None true false
   else run ["heroku"; "create"] None true false) ;;
  run ["heroku"; "addons:create"; "heroku-postgresql:hobby-dev"] None true false ;;
  env_vars <- get_production_env_vars ;;
  for_each (Dict.items env_vars)
    (fun kv =>
       if pushable (snd kv)
       then run ["heroku"; "config:set"; fst kv ++ "=" ++ snd kv] None true false ;; ret tt
       else ret tt) ;;
  run ["git"; "add"; "."] None true false ;;
  run ["git"; "commit"; "-m"; "Deploy OptionScope"] None true false ;;
  run ["git"; "push"; "heroku"; "main"] None true false ;;
  result <- run ["heroku"; "info"] None false true ;;
  let url := first_match heroku_url_line (PyStr.split PyStr.nl (stdout result)) in
  print "✅ Deployment successful!" ;;
  print ("🌐 Your OptionScope is live at: " ++ fmt url) ;;
  ret url.

(** [deploy_railway] *)
Definition deploy_railway : M (option string) :=
  enter Railway ;;
  print "🚀 Deploying OptionScope to Railway..." ;;
  probe_cli "railway"
    (print "❌ Railway CLI not found. Installing..." ;;
     run ["npm"; "install"; "-g"; "@railway/cli"] None true false ;; ret tt) ;;
  run ["railway"; "login"] None true false ;;
  run ["railway"; "init"] None true false ;;
  env_vars <- get_production_env_vars ;;
  for_each (Dict.items env_vars)
    (fun kv =>
       if pushable (snd kv)
       then run ["railway"; "variables"; "set"; fst kv ++ "=" ++ snd kv] None true false ;; ret tt
       else ret tt) ;;
  run ["railway"; "up"] None true false ;;
  print "✅ Deployment successful!" ;;
  print "🌐 Check Railway dashboard for your app URL" ;;
  ret (Some "Check Railway dashboard").

(** The [render_config] literal of [deploy_render]. *)
Definition render_config : Json.value :=
  Json.Obj
    [ ("services",
       Json.Arr
         [ Json.Obj
             [ ("type", Json.Str "web");
               ("name", Json.Str "optionscope");
               ("env", Json.Str "python");
               ("buildCommand", Json.Str "pip install -r requirements.txt");
               ("startCommand", Json.Str "gunicorn app:server");
               ("envVars",
                Json.Arr
                  [ Json.Obj [ ("key", Json.Str "FLASK_ENV");
                               ("value", Json.Str "production") ];
                    Json.Obj [ ("key", Json.Str "SECRET_KEY");
                               ("generateValue", Json.Bool true) ] ]) ] ]) ].

(** [deploy_render] *)
Definition deploy_render : M (option string) :=
  enter Render ;;
  print "🚀 Setting up Render deployment..." ;;
  write_file "render.yaml" (Json.dumps 2 render_config) ;;
  print "✅ render.yaml created!" ;;
  print "🌐 Connect your GitHub repo to Render dashboard to deploy" ;;
  ret (Some "Manual setup required").

(** The calls inside the [try] block of [setup_stripe_products]. *)
Definition create_products : M unit :=
  pro_product <-
    provider_call
      (ProductCreate "OptionScope Pro"
         "Advanced options trading analytics for serious traders") ;;
  pro_monthly <- provider_call (PriceCreate pro_product 2999 "usd" "month") ;;
  pro_yearly <- provider_call (PriceCreate pro_product 29999 "usd" "year") ;;
  enterprise_product <-
    provider_call
      (ProductCreate "OptionScope Enterprise"
         "Full-featured solution for institutions") ;;
  enterprise_monthly <-
    provider_call (PriceCreate enterprise_product 9999 "usd" "month") ;;
  enterprise_yearly <-
    provider_call (PriceCreate enterprise_product 99999 "usd" "year") ;;
  print "✅ Stripe products created successfully!" ;;
  print "📝 Add these to your environment variables:" ;;
  print ("STRIPE_PRO_MONTHLY=" ++ pro_monthly) ;;
  print ("STRIPE_PRO_YEARLY=" ++ pro_yearly) ;;
  print ("STRIPE_ENTERPRISE_MONTHLY=" ++ enterprise_monthly) ;;
  print ("STRIPE_ENTERPRISE_YEARLY=" ++ enterprise_yearly).

(** [setup_stripe_products] *)
Definition setup_stripe_products : M unit :=
  print (PyStr.nl ++ "💳 Setting up Stripe products...") ;;
  l <- input "Enter your Stripe Secret Key: " ;;
  let stripe_secret := PyStr.strip l in
  if negb (PyStr.truthy stripe_secret) then
    print "⚠️  Skipping Stripe setup. You can do this later in Stripe Dashboard."
  else
    import_module "stripe" ;;
    set_api_key stripe_secret ;;
    try_except create_products
      (fun e => print ("❌ Error setting up Stripe: " ++ exn_str e)).

(** The [platforms] table built by [__init__], in insertion order. *)
Definition platforms : list (string * routine) :=
  [ ("vercel", Vercel); ("heroku", Heroku); ("railway", Railway); ("render", Render) ].

Fixpoint lookup (name : string) (table : list (string * routine)) : option routine :=
  match table with
  | [] => None
  | (k, r) :: rest => if String.eqb name k then Some r else lookup name rest
  end.

(** Calling a value of the table: the bound method's body. *)
Definition call (r : routine) : M (option string) :=
  match r with
  | Vercel => deploy_vercel
  | Heroku => deploy_heroku
  | Railway => deploy_railway
  | Render => deploy_render
  end.

Fixpoint repeat_str (s : string) (n : nat) : string :=
  match n with
  | O => EmptyString
  | S k => s ++ repeat_str s k
  end.

(** The lines printed after a deploy routine returned a true value. *)
Definition summary (url : string) : M unit :=
  print (PyStr.nl ++ "🎉 Deployment Complete!") ;;
  print (repeat_str "=" 50) ;;
  print ("🌐 Live URL: " ++ url) ;;
  print ("💰 Pricing Page: " ++ url ++ "/pricing") ;;
  print ("📊 Dashboard: " ++ url ++ "/dashboard") ;;
  print ("🔐 Admin: " ++ url ++ "/auth/profile") ;;
  print (PyStr.nl ++ "📋 Next Steps:") ;;
  print "1. Set up your Stripe webhook endpoint" ;;
  print "2. Configure your domain (optional)" ;;
  print "3. Set up monitoring and analytics" ;;
  print "4. Test the payment flow" ;;
  print "5. Launch your marketing campaign!" ;;
  print (PyStr.nl ++ "💡 Monetization Tips:") ;;
  print "• Start with freemium model to build user base" ;;
  print "• Offer 14-day free trial for paid plans" ;;
  print "• Add usage-based pricing for API calls" ;;
  print "• Create enterprise features for institutions" ;;
  print "• Consider affiliate/referral program".

(** The prompt of [deploy] that precedes the dispatch. *)
Definition stripe_step : M unit :=
  l <- input "Set up Stripe products? (y/N): " ;;
  let setup_stripe := PyStr.lower (PyStr.strip l) in
  if String.eqb setup_stripe "y" then setup_stripe_products else ret tt.

(** [deploy] *)
Definition deploy (platform : string) : M unit :=
  print ("🚀 OptionScope Deployment to " ++ PyStr.title platform) ;;
  print (repeat_str "=" 50) ;;
  match lookup platform platforms with
  | None =>
      print ("❌ Unsupported platform: " ++ platform) ;;
      print ("Supported platforms: " ++ PyStr.join ", " (map fst platforms))
  | Some r =>
      stripe_step ;;
      url <- call r ;;
      if truthy_opt url then summary (fmt url) else ret tt
  end.

(** The menu table of [main]; [platforms.get(choice, 'vercel')]. *)
Definition menu : list (string * string) :=
  [ ("1", "vercel"); ("2", "heroku"); ("3", "railway"); ("4", "render") ].

Definition menu_get (choice : string) : string :=
  match Dict.get choice menu with
  | Some p => p
  | None => "vercel"
  end.

(** [main], with [sys.argv] as argument. *)
Definition main (argv : list string) : M unit :=
  platform <-
    (match argv with
     | _ :: a :: _ => ret (PyStr.lower a)
     | _ =>
         print "🚀 OptionScope Deployment" ;;
         print "Choose deployment platform:" ;;
         print "1. Vercel (Recommended - Free tier)" ;;
         print "2. Heroku (Full-stack)" ;;
         print "3. Railway (Modern)" ;;
         print "4. Render (Simple)" ;;
         l <- input "Enter choice (1-4): " ;;
         ret (menu_get (PyStr.strip l))
     end) ;;
  deploy platform.

(** The exit status of the interpreter: zero when [main] returns, one when
    an exception leaves it. *)
Definition exit_status {A} (r : result A) : Z :=
  match r with
  | Returned _ => 0
  | Raised _ => 1
  end.

(** ** Reading a run's log *)

Definition printed (s : state) : list string :=
  flat_map (fun e => match e with Printed l => [l] | _ => [] end) (history s).

Definition commands (s : state) : list (list string) :=
  flat_map (fun e => match e with Ran a _ _ => [a] | _ => [] end) (history s).

Definition requests (s : state) : list provider_request :=
  flat_map (fun e => match e with Requested q _ => [q] | _ => [] end) (history s).

Definition entered (s : state) : list routine :=
  flat_map (fun e => match e with Entered r => [r] | _ => [] end) (history s).

Definition written (s : state) : list (string * string) :=
  flat_map (fun e => match e with Wrote p c => [(p, c)] | _ => [] end) (history s).

(** ** Vocabulary of the statements *)

(** A state with the same world, input and counters, and an empty log: the
    log of a run started there holds the events of that run only. *)
Definition fresh (s : state) : state :=
  mkState (env s) (unread s) (drawn s) (spawned s) (requested s) [].

(** [adds P c]: whatever the state, [c] only extends the log, and every
    event it appends satisfies [P]. *)
Definition adds {A} (P : event -> Prop) (c : M A) : Prop :=
  forall s, exists l, log (snd (c s)) = (l ++ log s)%list /\ Forall P l.

(** A line that announces a URL as live. *)
Definition live_line (line : string) : bool :=
  prefix "🌐 Your OptionScope is live at: " line.

Definition not_live (e : event) : Prop :=
  match e with Printed l => live_line l = false | _ => True end.

Definition deploy_command (r : routine) : option (list string) :=
  match r with
  | Vercel => Some ["vercel"; "--prod"]
  | Heroku => Some ["git"; "push"; "heroku"; "main"]
  | Railway => Some ["railway"; "up"]
  | Render => None
  end.

Fixpoint same_argv (a b : list string) : bool :=
  match a, b with
  | [], [] => true
  | x :: a', y :: b' => String.eqb x y && same_argv a' b'
  | _, _ => false
  end.


(** [holds P s]: every event logged so far satisfies [P]. *)
Definition holds (P : event -> Prop) (s : state) : Prop := Forall P (log s).

(** [outcome I J R c]: started where every logged event satisfies [I], the
    computation [c] ends either where every logged event satisfies [J]
    (the situation of interest did not occur) or with a result and a state
    that satisfy [R] (it occurred, and was handled as [R] says). *)
Definition outcome {A} (I J : event -> Prop) (R : result A -> state -> Prop)
    (c : M A) : Prop :=
  forall s, holds I s -> holds J (snd (c s)) \/ R (fst (c s)) (snd (c s)).

(** How [bind] goes on after its first computation. *)
Definition resume {A B} (res : result A) (k : A -> M B) (s : state)
  : result B * state :=
  match res with
  | Returned a => k a s
  | Raised e => (Raised e, s)
  end.

(** No run of [argv] exited with a non-zero status. *)
Definition no_failure (argv : list string) (e : event) : Prop :=
  match e with
  | Ran a _ (Exited rc _ _) => same_argv a argv = true -> rc = 0%Z
  | _ => True
  end.

(** A line that reports a failed deployment. *)
Definition failure_said (line : string) : bool :=
  prefix "❌ Deployment failed" line.

(** No such run, no line announcing a live URL and no line reporting a
    failed deployment either. *)
Definition uneventful (argv : list string) (e : event) : Prop :=
  match e with
  | Ran a _ (Exited rc _ _) => same_argv a argv = true -> rc = 0%Z
  | Printed l => live_line l = false /\ failure_said l = false
  | _ => True
  end.

Definition failure_line (err : string) : string := "❌ Deployment failed: " ++ err.

(** What a routine has done when its deploy command [argv] exited with a
    non-zero status: the Vercel routine printed the error text and
    returned [None]; the other routines let [CalledProcessError] escape
    from the command run with [check=True].  In both cases the failed run
    is the only one, and no line announced a live URL. *)
Definition failure_report (r : routine) (argv : list string)
    (res : result (option string)) (s : state) : Prop :=
  exists rc out err l0,
    rc <> 0%Z
    /\ Forall (uneventful argv) l0
    /\ match r with
       | Vercel =>
           log s = Printed (failure_line err) :: Ran argv None (Exited rc out err) :: l0
           /\ res = Returned None
       | _ =>
           log s = Ran argv None (Exited rc out err) :: l0
           /\ res = Raised (CalledProcessError rc argv)
       end.

(** Every probe of the Heroku tool found it and exited with status zero. *)
Definition probe_ok (e : event) : Prop :=
  match e with
  | Ran a _ o =>
      same_argv a ["heroku"; "--version"] = true ->
      exists out err, o = Exited 0 out err
  | _ => True
  end.

Definition heroku_missing_line : string :=
  "❌ Heroku CLI not found. Please install it first.".

(** The Heroku routine, or the whole program, after a failed probe: the
    message is printed and the result is the normal return of [res]. *)
Definition told_missing {A} (a : A) (res : result A) (s : state) : Prop :=
  res = Returned a /\ In (Printed heroku_missing_line) (log s).

(** The whole program after [vercel --prod] exited with a non-zero status:
    the error text is printed and [main] returns. *)
Definition told_failed (res : result unit) (s : state) : Prop :=
  exists rc out err l0,
    rc <> 0%Z
    /\ Forall (uneventful ["vercel"; "--prod"]) l0
    /\ log s = Printed (failure_line err)
               :: Ran ["vercel"; "--prod"] None (Exited rc out err) :: l0
    /\ res = Returned tt.

(** The mapping that [get_production_env_vars] builds from the five
    stripped answers and the generated token. *)
Definition env_dict (pk sk wh token av iex : string) : Dict.t :=
  ([ ("FLASK_ENV", "production"); ("SECRET_KEY", token);
     ("STRIPE_PUBLISHABLE_KEY", pk); ("STRIPE_SECRET_KEY", sk);
     ("STRIPE_WEBHOOK_SECRET", wh) ]
   ++ (if PyStr.truthy av then [("ALPHA_VANTAGE_API_KEY", av)] else [])
   ++ (if PyStr.truthy iex then [("IEX_API_KEY", iex)] else []))%list.

(** The token computed from the next [n] bytes of the random source. *)
Definition next_token (n : nat) (s : state) : string :=
  Secrets.b64_nopad (map (urandom (env s)) (seq (drawn s) n)).

(** The six creation requests of [setup_stripe_products], the product of a
    price being the [id] returned for its tier ([ids] lists the returned
    ids in call order). *)
Definition plan (ids : list string) : list provider_request :=
  [ ProductCreate "OptionScope Pro"
      "Advanced options trading analytics for serious traders";
    PriceCreate (nth 0 ids EmptyString) 2999 "usd" "month";
    PriceCreate (nth 0 ids EmptyString) 29999 "usd" "year";
    ProductCreate "OptionScope Enterprise"
      "Full-featured solution for institutions";
    PriceCreate (nth 3 ids EmptyString) 9999 "usd" "month";
    PriceCreate (nth 3 ids EmptyString) 99999 "usd" "year" ].

Definition exchanges (s : state) : list (provider_request * provider_outcome) :=
  flat_map (fun e => match e with Requested q o => [(q, o)] | _ => [] end) (history s).

Definition api_keys (s : state) : list string :=
  flat_map (fun e => match e with ApiKeySet k => [k] | _ => [] end) (history s).

(** Reading the generated configuration: the service definitions of a
    document, the environment entries of a service, the key of an entry. *)
Definition services (doc : Json.value) : list Json.value :=
  match Json.field "services" doc with
  | Some (Json.Arr l) => l
  | _ => []
  end.

Definition env_entries (service : Json.value) : list Json.value :=
  match Json.field "envVars" service with
  | Some (Json.Arr l) => l
  | _ => []
  end.

Definition entry_key (entry : Json.value) : option string :=
  match Json.field "key" entry with
  | Some (Json.Str k) => Some k
  | _ => None
  end.

Definition supported_line : string :=
  "Supported platforms: vercel, heroku, railway, render".






(** The state in which [deploy] reaches its Stripe prompt: the two header
    lines are printed. *)
Definition after_header (platform : string) (s : state) : state :=
  record (Printed (repeat_str "=" 50))
    (record (Printed ("🚀 OptionScope Deployment to " ++ PyStr.title platform)) s).

Definition placeholder : string := "your-key-here".

(** The keys that [get_production_env_vars] can set. *)
Definition env_keys : list string :=
  [ "FLASK_ENV"; "SECRET_KEY"; "STRIPE_PUBLISHABLE_KEY"; "STRIPE_SECRET_KEY";
    "STRIPE_WEBHOOK_SECRET"; "ALPHA_VANTAGE_API_KEY"; "IEX_API_KEY" ].

(** The commands that set a variable on a platform: [vercel env add KEY]
    with the value on standard input, [heroku config:set KEY=VALUE],
    [railway variables set KEY=VALUE]. *)
Definition is_push (r : routine) (argv : list string) : bool :=
  match r, argv with
  | Vercel, [a; b; c; _] => same_argv [a; b; c] ["vercel"; "env"; "add"]
  | Heroku, [a; b; _] => same_argv [a; b] ["heroku"; "config:set"]
  | Railway, [a; b; c; _] => same_argv [a; b; c] ["railway"; "variables"; "set"]
  | _, _ => false
  end.

Definition pushed (r : routine) (k v : string) (argv : list string)
    (inp : option string) : Prop :=
  match r with
  | Vercel => argv = ["vercel"; "env"; "add"; k] /\ inp = Some v
  | Heroku => argv = ["heroku"; "config:set"; k ++ "=" ++ v] /\ inp = None
  | Railway => argv = ["railway"; "variables"; "set"; k ++ "=" ++ v] /\ inp = None
  | Render => False
  end.

(** Every variable-setting command of routine [r] carries one of the known
    keys with a value that is neither empty nor the placeholder. *)
Definition pushes_real (r : routine) (e : event) : Prop :=
  match e with
  | Ran argv inp _ =>
      is_push r argv = true ->
      exists k v, In k env_keys /\ pushed r k v argv inp
                  /\ v <> EmptyString /\ v <> placeholder
  | _ => True
  end.

Definition keys_known (d : Dict.t) : Prop :=
  forall kv, In kv (Dict.items d) -> In (fst kv) env_keys.

(** Sample worlds for the concrete runs below: in [calm] every command
    exits with status zero and prints nothing, every provider call
    succeeds and nothing is typed; [typing] supplies the lines to type,
    [breaking] makes one command exit with a status and an error text,
    [missing] makes one program absent, [refusing] makes the n-th provider
    call raise, [bare] has no third-party module installed. *)
Definition calm : world :=
  mkWorld [] (fun _ => Byte.x00)
    (fun _ _ => Exited 0 EmptyString EmptyString)
    (fun n _ => Created ("id_" ++ PyStr.of_Z (Z.of_nat n)))
    (fun _ => true).

Definition typing (lines : list string) (w : world) : world :=
  mkWorld lines (urandom w) (subprocess w) (provider w) (installed w).

Definition breaking (argv : list string) (rc : Z) (err : string) (w : world) : world :=
  mkWorld (stdin w) (urandom w)
    (fun n a => if same_argv a argv then Exited rc EmptyString err else subprocess w n a)
    (provider w) (installed w).

Definition missing (argv : list string) (w : world) : world :=
  mkWorld (stdin w) (urandom w)
    (fun n a => if same_argv a argv then NotFound else subprocess w n a)
    (provider w) (installed w).

Definition refusing (k : nat) (message : string) (w : world) : world :=
  mkWorld (stdin w) (urandom w) (subprocess w)
    (fun n q => if Nat.eqb n k then Failed message else provider w n q)
    (installed w).

(** A machine without the billing provider's package. *)
Definition bare (w : world) : world :=
  mkWorld (stdin w) (urandom w) (subprocess w) (provider w) (fun _ => false).

(** ** Further vocabulary: whole runs *)

(** The commands of a run with what each was given on standard input. *)
Definition runs (s : state) : list (list string * option string) :=
  flat_map (fun e => match e with Ran a i _ => [(a, i)] | _ => [] end) (history s).

Definition prompts (s : state) : list string :=
  flat_map (fun e => match e with Prompted p => [p] | _ => [] end) (history s).

(** An event that does not involve the billing provider. *)
Definition no_billing (e : event) : Prop :=
  match e with
  | Requested _ _ | ApiKeySet _ => False
  | _ => True
  end.

(** The fixed strings that two routines return in place of a URL. *)
Definition sentinel (r : routine) : string :=
  match r with
  | Railway => "Check Railway dashboard"
  | Render => "Manual setup required"
  | _ => EmptyString
  end.




(** A line other than the report of an unsupported platform. *)
Definition not_unsupported (e : event) : Prop :=
  match e with
  | Printed l => prefix "❌ Unsupported platform" l = false
  | _ => True
  end.

Definition supported (platform : string) : Prop :=
  exists r, lookup platform platforms = Some r.

(** The fixed words of the command lines of the Vercel routine. *)
Definition vercel_words : list string :=
  [ "vercel"; "--version"; "npm"; "install"; "-g"; "cp";
    "requirements-vercel.txt"; "requirements.txt"; "env"; "add"; "--prod" ].

(** A command line made of fixed words and names of variables only. *)
Definition argv_clean (e : event) : Prop :=
  match e with
  | Ran argv _ _ => Forall (fun a => In a (vercel_words ++ env_keys)%list) argv
  | _ => True
  end.






(** * Properties *)

Open Scope list_scope.

(** ** Concrete checks of the string functions *)

Example split_ex : PyStr.split "ab" "xabyabab" = ["x"; "y"; EmptyString; EmptyString].
Proof. reflexivity. Qed.

Example contains_ex : PyStr.contains "vercel.app" "see https://x.vercel.app " = true.
Proof. reflexivity. Qed.

(** ** The monad: computation rules and log invariants *)

Section Monad.

Context {A B : Type}.


Lemma bind_raised (c : M A) (k : A -> M B) s e s' :
  c s = (Raised e, s') -> bind c k s = (Raised e, s').
Proof. unfold bind. intros ->. reflexivity. Qed.

Lemma bind_inv (c : M A) (k : A -> M B) s r s' :
  bind c k s = (r, s') ->
  (exists a s1, c s = (Returned a, s1) /\ k a s1 = (r, s'))
  \/ (exists e, c s = (Raised e, s') /\ r = Raised e).
Proof.
  unfold bind. destruct (c s) as [[a | e] s1]; intros H.
  - left. eauto.
  - right. inversion H; subst. eauto.
Qed.

End Monad.

Section Adds.

Variable P : event -> Prop.

Lemma adds_ret {A} (a : A) : adds P (ret a).
Proof. intros s. exists []. split; [reflexivity | constructor]. Qed.

Lemma adds_raise {A} (e : exn) : adds P (@raise A e).
Proof. intros s. exists []. split; [reflexivity | constructor]. Qed.

Lemma adds_bind {A B} (c : M A) (k : A -> M B) :
  adds P c -> (forall a, adds P (k a)) -> adds P (bind c k).
Proof.
  intros Hc Hk s. unfold bind.
  destruct (Hc s) as (l1 & E1 & F1).
  destruct (c s) as [[a | e] s1]; simpl in *.
  - destruct (Hk a s1) as (l2 & E2 & F2).
    exists (l2 ++ l1). rewrite E2, E1, app_assoc. split; [reflexivity |].
    apply Forall_app; split; assumption.
  - exists l1. split; assumption.
Qed.

Lemma adds_try {A} (body : M A) (h : exn -> M A) :
  adds P body -> (forall e, adds P (h e)) -> adds P (try_except body h).
Proof.
  intros Hb Hh s. unfold try_except.
  destruct (Hb s) as (l1 & E1 & F1).
  destruct (body s) as [[a | e] s1]; simpl in *.
  - exists l1. split; assumption.
  - destruct (Hh e s1) as (l2 & E2 & F2).
    exists (l2 ++ l1). rewrite E2, E1, app_assoc. split; [reflexivity |].
    apply Forall_app; split; assumption.
Qed.

Lemma adds_for_each {A} (l : list A) (body : A -> M unit) :
  (forall x, In x l -> adds P (body x)) -> adds P (for_each l body).
Proof.
  induction l as [| x r IH]; intros H; simpl.
  - apply adds_ret.
  - apply adds_bind.
    + apply H. left. reflexivity.
    + intros _. apply IH. intros y Hy. apply H. right. exact Hy.
Qed.

Lemma adds_print line : P (Printed line) -> adds P (print line).
Proof.
  intros H s. exists [Printed line]. split; [reflexivity | repeat constructor; exact H].
Qed.

Lemma adds_input prompt : P (Prompted prompt) -> adds P (input prompt).
Proof.
  intros H s. exists [Prompted prompt]. unfold input. simpl.
  destruct (unread s); simpl; (split; [reflexivity | repeat constructor; exact H]).
Qed.

Lemma adds_run argv inp check capture :
  (forall o, P (Ran argv inp o)) -> adds P (run argv inp check capture).
Proof.
  intros H s. exists [Ran argv inp (subprocess (env s) (spawned s) argv)].
  unfold run.
  destruct (subprocess (env s) (spawned s) argv) as [| rc out err]; simpl.
  - split; [reflexivity | repeat constructor; apply H].
  - destruct (check && negb (rc =? 0)%Z); simpl;
      (split; [reflexivity | repeat constructor; apply H]).
Qed.

Lemma adds_os_urandom n : adds P (os_urandom n).
Proof. intros s. exists []. split; [reflexivity | constructor]. Qed.

Lemma adds_provider_call q :
  (forall o, P (Requested q o)) -> adds P (provider_call q).
Proof.
  intros H s. exists [Requested q (provider (env s) (requested s) q)].
  unfold provider_call.
  destruct (provider (env s) (requested s) q); simpl;
    (split; [reflexivity | repeat constructor; apply H]).
Qed.

Lemma adds_import_module name : adds P (import_module name).
Proof.
  intros s. exists []. unfold import_module.
  destruct (installed (env s) name); (split; [reflexivity | constructor]).
Qed.

Lemma adds_set_api_key k : P (ApiKeySet k) -> adds P (set_api_key k).
Proof.
  intros H s. exists [ApiKeySet k]. split; [reflexivity | repeat constructor; exact H].
Qed.

Lemma adds_write_file p c : P (Wrote p c) -> adds P (write_file p c).
Proof.
  intros H s. exists [Wrote p c]. split; [reflexivity | repeat constructor; exact H].
Qed.

Lemma adds_enter r : P (Entered r) -> adds P (enter r).
Proof.
  intros H s. exists [Entered r]. split; [reflexivity | repeat constructor; exact H].
Qed.

End Adds.

(** A bind whose continuation may rely on what the first computation
    guarantees of its result. *)
Lemma adds_bind_post {A B} (P : event -> Prop) (Q : A -> Prop)
    (c : M A) (k : A -> M B) :
  adds P c ->
  (forall s a s', c s = (Returned a, s') -> Q a) ->
  (forall a, Q a -> adds P (k a)) ->
  adds P (bind c k).
Proof.
  intros Hc Hq Hk s. unfold bind.
  destruct (Hc s) as (l1 & E1 & F1).
  destruct (c s) as [[a | e] s1] eqn:Ec; simpl in *.
  - destruct (Hk a (Hq _ _ _ Ec) s1) as (l2 & E2 & F2).
    exists (l2 ++ l1). rewrite E2, E1, app_assoc. split; [reflexivity |].
    apply Forall_app; split; assumption.
  - exists l1. split; assumption.
Qed.

Lemma adds_weaken {A} (P Q : event -> Prop) (c : M A) :
  (forall e, P e -> Q e) -> adds P c -> adds Q c.
Proof.
  intros HPQ H s. destruct (H s) as (l & E & F). exists l. split; [exact E |].
  eapply Forall_impl; eauto.
Qed.

(** One step of a log-invariant proof: the rule of the construct at the
    head of the computation. *)
Ltac log_step :=
  lazymatch goal with
  | |- adds _ (ret _) => apply adds_ret
  | |- adds _ (raise _) => apply adds_raise
  | |- adds _ (print _) => apply adds_print
  | |- adds _ (input _) => apply adds_input
  | |- adds _ (run _ _ _ _) => apply adds_run; intros ?
  | |- adds _ (os_urandom _) => apply adds_os_urandom
  | |- adds _ (provider_call _) => apply adds_provider_call; intros ?
  | |- adds _ (import_module _) => apply adds_import_module
  | |- adds _ (set_api_key _) => apply adds_set_api_key
  | |- adds _ (write_file _ _) => apply adds_write_file
  | |- adds _ (enter _) => apply adds_enter
  | |- adds _ (try_except _ _) => apply adds_try; [| intros ?]
  | |- adds _ (for_each _ _) => apply adds_for_each; intros ? ?
  | |- adds _ (bind _ _) => apply adds_bind; [| intros ?]
  | |- adds _ (if ?b then _ else _) => destruct b eqn:?
  | |- adds _ (match ?e with _ => _ end) => destruct e eqn:?
  | |- adds _ (let _ := _ in _) => cbv zeta
  | |- adds _ get_production_env_vars => unfold get_production_env_vars
  | |- adds _ generate_secret_key => unfold generate_secret_key
  | |- adds _ (token_urlsafe _) => unfold token_urlsafe
  | |- adds _ (probe_cli _ _) => unfold probe_cli
  | |- adds _ setup_stripe_products => unfold setup_stripe_products
  | |- adds _ create_products => unfold create_products
  | |- adds _ stripe_step => unfold stripe_step
  | |- adds _ (summary _) => unfold summary
  end.

Ltac log_inv := repeat log_step.

(** ** Selecting events from a log *)

Section Select.

Context {T : Type} (f : event -> list T).

Lemma select_app (l l0 : list event) :
  flat_map f (rev (l ++ l0)) = flat_map f (rev l0) ++ flat_map f (rev l).
Proof. rewrite rev_app_distr, flat_map_app. reflexivity. Qed.

Lemma select_none (l : list event) :
  Forall (fun e => f e = []) l -> flat_map f (rev l) = [].
Proof.
  intros H. apply Forall_rev in H.
  induction H as [| e r He _ IH]; simpl; [reflexivity |].
  rewrite He, IH. reflexivity.
Qed.

End Select.

Lemma lookup_none name table :
  ~ In name (map fst table) -> lookup name table = None.
Proof.
  induction table as [| [k r] rest IH]; simpl; intros H; [reflexivity |].
  destruct (String.eqb_spec name k) as [-> | _].
  - exfalso. apply H. left. reflexivity.
  - apply IH. intros Hin. apply H. right. exact Hin.
Qed.


(** ** The dispatcher on an unsupported name *)

(** C4. For a platform name that is not a key of the four-entry table,
    [deploy] returns after printing the header, the unsupported-platform
    line and the line of supported platforms; it enters no deploy routine,
    runs no command, calls no provider and writes no file; and the last
    line names each of the four keys of the table. *)
Theorem unsupported_platform_reported (platform : string) (s : state) :
  ~ In platform (map fst platforms) ->
  let out := deploy platform (fresh s) in
  fst out = Returned tt
  /\ entered (snd out) = []
  /\ commands (snd out) = []
  /\ requests (snd out) = []
  /\ written (snd out) = []
  /\ printed (snd out) =
       [ ("🚀 OptionScope Deployment to " ++ PyStr.title platform)%string;
         repeat_str "=" 50;
         ("❌ Unsupported platform: " ++ platform)%string;
         supported_line ]
  /\ length platforms = 4
  /\ (forall name, In name (map fst platforms) ->
        PyStr.contains name supported_line = true).
Proof.
  intros H. apply lookup_none in H.
  unfold deploy. rewrite H. unfold bind, print. simpl.
  repeat split; try reflexivity.
  intros name [<- | [<- | [<- | [<- | []]]]]; reflexivity.
Qed.

(** ** A blank billing key *)

(** C10. When the line answered to the secret-key prompt is blank after
    stripping, [setup_stripe_products] returns normally right after the
    skip message: no provider request is made, no API key is set, and no
    exception is raised. *)
Theorem blank_key_skips_setup (s : state) (l : string) (rest : list string) :
  unread s = l :: rest ->
  PyStr.strip l = EmptyString ->
  let out := setup_stripe_products (fresh s) in
  fst out = Returned tt
  /\ exchanges (snd out) = []
  /\ api_keys (snd out) = []
  /\ commands (snd out) = []
  /\ unread (snd out) = rest
  /\ printed (snd out) =
       [ (PyStr.nl ++ "💳 Setting up Stripe products...")%string;
         "⚠️  Skipping Stripe setup. You can do this later in Stripe Dashboard."%string ].
Proof.
  intros Hin Hblank.
  unfold setup_stripe_products, bind, print, input. simpl.
  rewrite Hin. simpl. rewrite Hblank. simpl.
  repeat split; reflexivity.
Qed.

(** ** The generated configuration file *)

Example loads_rejects_trailing_comma : Json.loads "[1, 2,]" = None.
Proof. reflexivity. Qed.

Example loads_rejects_leading_zero : Json.loads "[01]" = None.
Proof. reflexivity. Qed.

Example loads_rejects_open_array : Json.loads "[" = None.
Proof. reflexivity. Qed.

Example loads_reads_nested :
  Json.loads " [1, -2, true, null, [], {}] "
  = Some (Json.Arr [Json.Int 1; Json.Int (-2); Json.Bool true; Json.Null;
                    Json.Arr []; Json.Obj []]).
Proof. vm_compute. reflexivity. Qed.

(** C7. Whatever the state, [deploy_render] writes one file,
    [render.yaml]; its content is a well-formed JSON text, which reads back
    as the configuration literal; the document has one service definition,
    and the environment entries of that service are exactly two, with the
    keys [FLASK_ENV] and [SECRET_KEY]. *)
Theorem render_config_well_formed (s : state) :
  let out := deploy_render (fresh s) in
  fst out = Returned (Some "Manual setup required"%string)
  /\ exists content doc service,
       written (snd out) = [("render.yaml"%string, content)]
       /\ Json.well_formed content = true
       /\ Json.loads content = Some doc
       /\ doc = render_config
       /\ services doc = [service]
       /\ map entry_key (env_entries service)
          = [Some "FLASK_ENV"%string; Some "SECRET_KEY"%string].
Proof.
  split; [reflexivity |].
  exists (Json.dumps 2 render_config), render_config.
  eexists. repeat split; try (vm_compute; reflexivity).
Qed.

(** ** The interactive menu *)

Lemma menu_get_cases (choice : string) :
  (choice = "1"%string -> menu_get choice = "vercel"%string)
  /\ (choice = "2"%string -> menu_get choice = "heroku"%string)
  /\ (choice = "3"%string -> menu_get choice = "railway"%string)
  /\ (choice = "4"%string -> menu_get choice = "render"%string)
  /\ (~ In choice ["1"; "2"; "3"; "4"]%string -> menu_get choice = "vercel"%string).
Proof.
  repeat split; try (intros ->; reflexivity).
  intros H. unfold menu_get, menu. simpl.
  repeat match goal with
         | |- context [String.eqb choice ?k] =>
             destruct (String.eqb_spec choice k) as [-> | _];
             [exfalso; apply H; simpl; tauto |]
         end.
  reflexivity.
Qed.

(** C8. With no command-line argument ([sys.argv] holds at most the script
    name), [main] prints the menu numbered 1 to 4, prompts for a choice and
    deploys to the platform selected by the stripped answer: ['1'] to ['4']
    select vercel, heroku, railway and render, and every other answer
    selects the first option, vercel. *)
Theorem menu_selects_platform (argv : list string) (s : state)
    (l : string) (rest : list string) :
  length argv <= 1 ->
  unread s = l :: rest ->
  let choice := PyStr.strip l in
  exists s1,
    main argv s = deploy (menu_get choice) s1
    /\ unread s1 = rest
    /\ log s1 =
         [ Prompted "Enter choice (1-4): ";
           Printed "4. Render (Simple)";
           Printed "3. Railway (Modern)";
           Printed "2. Heroku (Full-stack)";
           Printed "1. Vercel (Recommended - Free tier)";
           Printed "Choose deployment platform:";
           Printed "🚀 OptionScope Deployment" ]%string ++ log s
    /\ (choice = "1"%string -> menu_get choice = "vercel"%string)
    /\ (choice = "2"%string -> menu_get choice = "heroku"%string)
    /\ (choice = "3"%string -> menu_get choice = "railway"%string)
    /\ (choice = "4"%string -> menu_get choice = "render"%string)
    /\ (~ In choice ["1"; "2"; "3"; "4"]%string -> menu_get choice = "vercel"%string).
Proof.
  intros Hargv Hin choice.
  assert (Hmenu :
            main argv s = bind
               (bind (print "🚀 OptionScope Deployment"%string) (fun _ =>
                bind (print "Choose deployment platform:"%string) (fun _ =>
                bind (print "1. Vercel (Recommended - Free tier)"%string) (fun _ =>
                bind (print "2. Heroku (Full-stack)"%string) (fun _ =>
                bind (print "3. Railway (Modern)"%string) (fun _ =>
                bind (print "4. Render (Simple)"%string) (fun _ =>
                bind (input "Enter choice (1-4): "%string) (fun l0 =>
                ret (menu_get (PyStr.strip l0))))))))))
               deploy s).
  { destruct argv as [| a [| b r]]; simpl in Hargv; [reflexivity | reflexivity | lia]. }
  rewrite Hmenu.
  unfold bind at 1. unfold bind, print, input. simpl. rewrite Hin. simpl.
  eexists. split; [reflexivity |]. simpl.
  split; [reflexivity |]. split; [reflexivity |].
  apply menu_get_cases.
Qed.

(** ** The generated secret *)

Example token_of_zero_bytes :
  Secrets.b64_nopad (repeat Byte.x00 4) = "AAAAAA"%string.
Proof. reflexivity. Qed.

Example token_of_three_bytes :
  Secrets.b64_nopad [Byte.x4d; Byte.x61; Byte.x6e] = "TWFu"%string.
Proof. reflexivity. Qed.

Example token_with_url_characters :
  Secrets.b64_nopad [Byte.xfb; Byte.xff; Byte.xbe] = "-_--"%string.
Proof. reflexivity. Qed.

Lemma byte_val_range (b : Byte.byte) : (0 <= Secrets.byte_val b < 256)%Z.
Proof.
  unfold Secrets.byte_val. pose proof (Byte.to_N_bounded b) as H.
  split; [apply N2Z.is_nonneg |].
  change 256%Z with (Z.of_N 256). apply N2Z.inj_lt. lia.
Qed.

Lemma sextet_safe (i : Z) :
  (0 <= i < 64)%Z -> Secrets.url_safe_char (Secrets.sextet i) = true.
Proof.
  intros H. unfold Secrets.sextet.
  assert (Hn : Z.to_nat i < 64) by lia.
  generalize dependent (Z.to_nat i). clear H. intros n Hn.
  do 64 (destruct n as [| n]; [reflexivity |]). lia.
Qed.

Lemma lor_below (n a b : Z) :
  (0 <= n)%Z -> (0 <= a < 2 ^ n)%Z -> (0 <= b < 2 ^ n)%Z ->
  (0 <= Z.lor a b < 2 ^ n)%Z.
Proof.
  intros Hn Ha Hb.
  assert (H0 : (0 <= Z.lor a b)%Z) by (apply Z.lor_nonneg; lia).
  split; [exact H0 |].
  destruct (Z.eq_dec (Z.lor a b) 0) as [E | NE].
  - rewrite E. apply Z.pow_pos_nonneg; lia.
  - apply Z.log2_lt_pow2; [lia |].
    rewrite Z.log2_lor by lia.
    apply Z.max_lub_lt.
    + destruct (Z.eq_dec a 0) as [-> | Ha0]; [simpl |].
      * destruct (Z.eq_dec n 0) as [-> | ?]; [| lia].
        exfalso. simpl in Ha, Hb. assert (b = 0%Z) by lia. subst b.
        apply NE. reflexivity.
      * apply Z.log2_lt_pow2; lia.
    + destruct (Z.eq_dec b 0) as [-> | Hb0]; [simpl |].
      * destruct (Z.eq_dec n 0) as [-> | ?]; [| lia].
        exfalso. simpl in Ha, Hb. assert (a = 0%Z) by lia. subst a.
        apply NE. reflexivity.
      * apply Z.log2_lt_pow2; lia.
Qed.

Section Sextets.

Variables x y : Z.
Hypothesis Hx : (0 <= x < 256)%Z.
Hypothesis Hy : (0 <= y < 256)%Z.

Lemma high_six : (0 <= Z.shiftr x 2 < 64)%Z.
Proof.
  rewrite Z.shiftr_div_pow2 by lia. change (2 ^ 2)%Z with 4%Z.
  split; [apply Z.div_pos; lia | apply Z.div_lt_upper_bound; lia].
Qed.

Lemma low_two_shifted : (0 <= Z.shiftl (Z.land x 3) 4 < 64)%Z.
Proof.
  rewrite Z.shiftl_mul_pow2 by lia. change (2 ^ 4)%Z with 16%Z.
  change 3%Z with (Z.ones 2). rewrite Z.land_ones by lia.
  change (2 ^ 2)%Z with 4%Z.
  pose proof (Z.mod_pos_bound x 4). lia.
Qed.

Lemma low_four_shifted : (0 <= Z.shiftl (Z.land x 15) 2 < 64)%Z.
Proof.
  rewrite Z.shiftl_mul_pow2 by lia. change (2 ^ 2)%Z with 4%Z.
  change 15%Z with (Z.ones 4). rewrite Z.land_ones by lia.
  change (2 ^ 4)%Z with 16%Z.
  pose proof (Z.mod_pos_bound x 16). lia.
Qed.

Lemma high_four : (0 <= Z.shiftr y 4 < 64)%Z.
Proof.
  rewrite Z.shiftr_div_pow2 by lia. change (2 ^ 4)%Z with 16%Z.
  split; [apply Z.div_pos; lia |]. apply Z.div_lt_upper_bound; lia.
Qed.

Lemma high_two : (0 <= Z.shiftr y 6 < 64)%Z.
Proof.
  rewrite Z.shiftr_div_pow2 by lia. change (2 ^ 6)%Z with 64%Z.
  split; [apply Z.div_pos; lia |]. apply Z.div_lt_upper_bound; lia.
Qed.

Lemma low_six : (0 <= Z.land x 63 < 64)%Z.
Proof.
  change 63%Z with (Z.ones 6). rewrite Z.land_ones by lia.
  change (2 ^ 6)%Z with 64%Z. apply Z.mod_pos_bound. lia.
Qed.

End Sextets.

Lemma three_steps (P : list Byte.byte -> Prop) :
  P [] -> (forall a, P [a]) -> (forall a b, P [a; b]) ->
  (forall a b c r, P r -> P (a :: b :: c :: r)) ->
  forall bs, P bs.
Proof.
  intros H0 H1 H2 H3.
  fix IH 1. intros [| a [| b [| c r]]].
  - exact H0.
  - apply H1.
  - apply H2.
  - apply H3. apply IH.
Qed.

Lemma b64_nopad_url_safe (bs : list Byte.byte) :
  Secrets.url_safe (Secrets.b64_nopad bs) = true.
Proof.
  induction bs as [| a | a b | a b c r IH] using three_steps.
  - reflexivity.
  - pose proof (byte_val_range a) as Ha.
    cbn [Secrets.b64_nopad Secrets.url_safe].
    rewrite !sextet_safe; auto using high_six, low_two_shifted.
  - pose proof (byte_val_range a) as Ha. pose proof (byte_val_range b) as Hb.
    cbn [Secrets.b64_nopad Secrets.url_safe].
    rewrite !sextet_safe; auto using high_six, low_four_shifted.
    change 64%Z with (2 ^ 6)%Z. apply lor_below; [lia | |].
    + apply low_two_shifted; assumption.
    + apply high_four; assumption.
  - pose proof (byte_val_range a) as Ha. pose proof (byte_val_range b) as Hb.
    pose proof (byte_val_range c) as Hc.
    cbn [Secrets.b64_nopad Secrets.url_safe].
    rewrite IH. rewrite !sextet_safe; auto using high_six, low_six.
    + change 64%Z with (2 ^ 6)%Z. apply lor_below; [lia | |].
      * apply low_four_shifted; assumption.
      * apply high_two; assumption.
    + change 64%Z with (2 ^ 6)%Z. apply lor_below; [lia | |].
      * apply low_two_shifted; assumption.
      * apply high_four; assumption.
Qed.

Lemma b64_nopad_length (bs : list Byte.byte) :
  String.length (Secrets.b64_nopad bs) = (4 * length bs + 2) / 3.
Proof.
  induction bs as [| a | a b | a b c r IH] using three_steps;
    try reflexivity.
  cbn [Secrets.b64_nopad String.length length]. rewrite IH.
  replace (4 * S (S (S (length r))) + 2) with (4 * length r + 2 + 4 * 3) by lia.
  rewrite Nat.div_add by lia. lia.
Qed.

(** ** The environment mapping *)

(** With five lines of input left, [get_production_env_vars] returns the
    mapping built from the stripped answers and a fresh token. *)
Lemma env_vars_run (s : state) (l1 l2 l3 l4 l5 : string) (rest : list string) :
  unread s = l1 :: l2 :: l3 :: l4 :: l5 :: rest ->
  get_production_env_vars s =
    (Returned
       (env_dict (PyStr.strip l1) (PyStr.strip l2) (PyStr.strip l3)
          (next_token 32 s) (PyStr.strip l4) (PyStr.strip l5)),
     mkState (env s) rest (drawn s + 32) (spawned s) (requested s)
       ([ Prompted "IEX Cloud API Key: ";
          Prompted "Alpha Vantage API Key: ";
          Printed (PyStr.nl ++ "📊 Optional: Market Data API Keys (press Enter to skip)");
          Prompted "Stripe Webhook Secret (whsec_...): ";
          Prompted "Stripe Secret Key (sk_live_...): ";
          Prompted "Stripe Publishable Key (pk_live_...): ";
          Printed "Get your Stripe keys from: https://dashboard.stripe.com/apikeys";
          Printed (PyStr.nl ++ "💰 Setting up monetization (Stripe)...") ]%string
        ++ log s)).
Proof.
  intros Hin.
  unfold get_production_env_vars, generate_secret_key, token_urlsafe,
    bind, print, input, os_urandom, ret. simpl.
  rewrite Hin. simpl. unfold env_dict, next_token.
  destruct (PyStr.truthy (PyStr.strip l4)), (PyStr.truthy (PyStr.strip l5));
    reflexivity.
Qed.

(** With fewer lines left, a prompt meets the end of input. *)
Lemma env_vars_returned (s s' : state) (d : Dict.t) :
  get_production_env_vars s = (Returned d, s') ->
  exists l1 l2 l3 l4 l5 rest, unread s = l1 :: l2 :: l3 :: l4 :: l5 :: rest.
Proof.
  intros H.
  destruct (unread s) as [| l1 [| l2 [| l3 [| l4 [| l5 rest]]]]] eqn:Hin;
    try (exfalso; revert H;
         unfold get_production_env_vars, generate_secret_key, token_urlsafe,
           bind, print, input, os_urandom, ret; simpl;
         rewrite Hin; simpl; discriminate).
  repeat eexists.
Qed.

Lemma truthy_iff (v : string) : PyStr.truthy v = true <-> v <> EmptyString.
Proof.
  destruct v; simpl; split; intros H; try reflexivity; try discriminate.
  exfalso. apply H. reflexivity.
Qed.

Lemma env_dict_keys_known pk sk wh token av iex :
  keys_known (env_dict pk sk wh token av iex).
Proof.
  intros kv. unfold env_dict, Dict.items, env_keys.
  destruct (PyStr.truthy av), (PyStr.truthy iex); simpl;
    intuition (subst; simpl; tauto).
Qed.

Lemma env_vars_keys_known (s : state) (d : Dict.t) (s' : state) :
  get_production_env_vars s = (Returned d, s') -> keys_known d.
Proof.
  intros H. destruct (env_vars_returned _ _ _ H) as (l1 & l2 & l3 & l4 & l5 & rest & Hin).
  rewrite (env_vars_run _ _ _ _ _ _ _ Hin) in H. inversion H; subst.
  apply env_dict_keys_known.
Qed.

(** C9. Every mapping that [get_production_env_vars] returns was built
    from five answered prompts; it maps [FLASK_ENV] to ['production'],
    [SECRET_KEY] to a token freshly computed from the next 32 bytes of the
    random source (43 characters, all URL-safe), the three Stripe keys to
    the stripped answers even when these are blank, and it holds
    [ALPHA_VANTAGE_API_KEY] (resp. [IEX_API_KEY]) exactly when the
    corresponding stripped answer is not blank. *)
Theorem env_vars_contents (s s' : state) (d : Dict.t) :
  get_production_env_vars s = (Returned d, s') ->
  exists l1 l2 l3 l4 l5 rest token,
    unread s = l1 :: l2 :: l3 :: l4 :: l5 :: rest
    /\ token = next_token 32 s
    /\ drawn s' = drawn s + 32
    /\ Secrets.url_safe token = true
    /\ String.length token = 43
    /\ Dict.get "FLASK_ENV" d = Some "production"%string
    /\ Dict.get "SECRET_KEY" d = Some token
    /\ Dict.get "STRIPE_PUBLISHABLE_KEY" d = Some (PyStr.strip l1)
    /\ Dict.get "STRIPE_SECRET_KEY" d = Some (PyStr.strip l2)
    /\ Dict.get "STRIPE_WEBHOOK_SECRET" d = Some (PyStr.strip l3)
    /\ (Dict.mem "ALPHA_VANTAGE_API_KEY" d = true <-> PyStr.strip l4 <> EmptyString)
    /\ (Dict.mem "IEX_API_KEY" d = true <-> PyStr.strip l5 <> EmptyString)
    /\ (PyStr.strip l4 <> EmptyString ->
        Dict.get "ALPHA_VANTAGE_API_KEY" d = Some (PyStr.strip l4))
    /\ (PyStr.strip l5 <> EmptyString ->
        Dict.get "IEX_API_KEY" d = Some (PyStr.strip l5)).
Proof.
  intros H.
  destruct (env_vars_returned _ _ _ H) as (l1 & l2 & l3 & l4 & l5 & rest & Hin).
  rewrite (env_vars_run _ _ _ _ _ _ _ Hin) in H. inversion H; subst; clear H.
  exists l1, l2, l3, l4, l5, rest, (next_token 32 s).
  split; [exact Hin |]. split; [reflexivity |]. split; [reflexivity |].
  split; [apply b64_nopad_url_safe |].
  split.
  { unfold next_token. rewrite b64_nopad_length, length_map, length_seq. reflexivity. }
  unfold env_dict, Dict.mem.
  rewrite <- !truthy_iff.
  destruct (PyStr.truthy (PyStr.strip l4)), (PyStr.truthy (PyStr.strip l5));
    simpl; repeat split; intros; try reflexivity; try discriminate; try assumption.
Qed.

(** ** The placeholder value *)

Lemma pushable_real (v : string) :
  pushable v = true -> v <> EmptyString /\ v <> placeholder.
Proof.
  unfold pushable, placeholder. intros H.
  apply andb_true_iff in H. destruct H as [Ht Hp].
  split.
  - apply truthy_iff. exact Ht.
  - intros ->. discriminate Hp.
Qed.

Example placeholder_not_pushable : pushable placeholder = false.
Proof. reflexivity. Qed.

Example blank_not_pushable : pushable EmptyString = false.
Proof. reflexivity. Qed.

Ltac side_condition :=
  simpl; try exact I; try (intros Hpush; discriminate Hpush).

Ltac env_step :=
  match goal with
  | |- adds _ (bind get_production_env_vars _) =>
      apply adds_bind_post with (Q := keys_known);
      [ | exact env_vars_keys_known | intros ? ? ]
  end.

(** The loop of a routine pushes a pair of the mapping only when its value
    passes the filter. *)
Ltac pushed_pair :=
  match goal with
  | Hk : keys_known ?d, Hin : In ?x (Dict.items ?d), Hp : pushable (snd ?x) = true |- _ =>
      intros _; exists (fst x), (snd x);
      destruct (pushable_real _ Hp) as [Hne Hnp];
      split; [exact (Hk x Hin) |];
      split; [split; reflexivity |];
      split; assumption
  end.

Lemma routines_push_real (r : routine) : adds (pushes_real r) (call r).
Proof.
  destruct r; unfold call;
    [ unfold deploy_vercel | unfold deploy_heroku
    | unfold deploy_railway | unfold deploy_render ];
    repeat first [env_step | log_step]; side_condition; pushed_pair.
Qed.

(** C2, amended. A mapping returned by [get_production_env_vars] was built
    from five answers, and an optional market-data key whose answer is
    blank after stripping is absent from it.  The placeholder is filtered
    where the mapping is pushed, not where it is built: every
    variable-setting command that a deploy routine runs carries one of the
    known keys with a value that is neither empty nor ['your-key-here']. *)
Theorem placeholder_filtered_at_push (s s' : state) (d : Dict.t) :
  get_production_env_vars s = (Returned d, s') ->
  (exists l1 l2 l3 l4 l5 rest,
     unread s = l1 :: l2 :: l3 :: l4 :: l5 :: rest
     /\ (PyStr.strip l4 = EmptyString -> Dict.mem "ALPHA_VANTAGE_API_KEY" d = false)
     /\ (PyStr.strip l5 = EmptyString -> Dict.mem "IEX_API_KEY" d = false))
  /\ (forall r, adds (pushes_real r) (call r)).
Proof.
  intros H. split; [| exact routines_push_real].
  destruct (env_vars_returned _ _ _ H) as (l1 & l2 & l3 & l4 & l5 & rest & Hin).
  rewrite (env_vars_run _ _ _ _ _ _ _ Hin) in H. inversion H; subst; clear H.
  exists l1, l2, l3, l4, l5, rest. split; [exact Hin |].
  unfold env_dict, Dict.mem.
  split; intros ->; simpl.
  - destruct (PyStr.truthy (PyStr.strip l5)); reflexivity.
  - destruct (PyStr.truthy (PyStr.strip l4)); reflexivity.
Qed.

(** ** Billing products *)

Ltac next_outcome :=
  match goal with
  | |- context [provider ?w ?n ?q] =>
      let id := fresh "id" in
      let m := fresh "m" in
      destruct (provider w n q) as [id | m]; simpl
  end.

(** C6. With a secret key that is not blank after stripping, and the
    provider's module importable (the [import stripe] that precedes the
    [try] succeeds),
    [setup_stripe_products] sets the key and sends the creation requests
    of the plan in order: the Pro product with a monthly and a yearly
    price, then the Enterprise product with a monthly and a yearly price.
    Either all six succeed and the four price ids are printed, or the
    first provider exception ends the requests: it is the last exchange
    of the run, its message is printed, the routine returns normally, and
    the run holds no other provider call (nothing undoes the objects
    already created). *)
Theorem stripe_setup_creates_or_stops (s : state) (l : string) (rest : list string) :
  unread s = l :: rest ->
  PyStr.strip l <> EmptyString ->
  installed (env s) "stripe" = true ->
  let out := setup_stripe_products (fresh s) in
  fst out = Returned tt
  /\ api_keys (snd out) = [PyStr.strip l]
  /\ commands (snd out) = []
  /\ exists ids,
       (length ids = 6
        /\ exchanges (snd out) = combine (plan ids) (map Created ids)
        /\ printed (snd out) =
             [ PyStr.nl ++ "💳 Setting up Stripe products...";
               "✅ Stripe products created successfully!";
               "📝 Add these to your environment variables:";
               "STRIPE_PRO_MONTHLY=" ++ nth 1 ids EmptyString;
               "STRIPE_PRO_YEARLY=" ++ nth 2 ids EmptyString;
               "STRIPE_ENTERPRISE_MONTHLY=" ++ nth 4 ids EmptyString;
               "STRIPE_ENTERPRISE_YEARLY=" ++ nth 5 ids EmptyString ]%string)
       \/ (length ids < 6
           /\ exists q m,
                nth_error (plan ids) (length ids) = Some q
                /\ exchanges (snd out)
                   = combine (firstn (length ids) (plan ids)) (map Created ids)
                     ++ [(q, Failed m)]
                /\ printed (snd out) =
                     [ PyStr.nl ++ "💳 Setting up Stripe products...";
                       "❌ Error setting up Stripe: " ++ m ]%string).
Proof.
  intros Hin Hkey Hmod. apply truthy_iff in Hkey.
  unfold setup_stripe_products, create_products, try_except, bind, print, input,
    import_module, set_api_key, provider_call.
  simpl. rewrite Hin. simpl. rewrite Hkey. simpl. rewrite Hmod. simpl.
  next_outcome;
    [ next_outcome;
      [ next_outcome;
        [ next_outcome;
          [ next_outcome;
            [ next_outcome;
              [ repeat split;
                exists [id; id0; id1; id2; id3; id4]; left; repeat split
              | repeat split; exists [id; id0; id1; id2; id3] ]
            | repeat split; exists [id; id0; id1; id2] ]
          | repeat split; exists [id; id0; id1] ]
        | repeat split; exists [id; id0] ]
      | repeat split; exists [id] ]
    | repeat split; exists [] ];
    right; (split; [simpl; lia |]); eexists; eexists;
    (split; [reflexivity |]); split; reflexivity.
Qed.

(** ** The dispatcher on a supported name *)

Lemma deploy_supported (name : string) (r : routine) (s : state) :
  lookup name platforms = Some r ->
  deploy name s =
    bind stripe_step
      (fun _ => bind (call r)
         (fun url => if truthy_opt url then summary (fmt url) else ret tt))
      (after_header name s).
Proof. intros H. unfold deploy. rewrite H. reflexivity. Qed.













(** ** Handling of failures *)

Section Outcome.

Variables I J : event -> Prop.
Hypothesis sub : forall e, I e -> J e.

Lemma holds_weaken (s : state) : holds I s -> holds J s.
Proof. unfold holds. apply Forall_impl. exact sub. Qed.

Lemma holds_extended (P : event -> Prop) (s s' : state) (l : list event) :
  log s' = l ++ log s -> Forall P l -> holds P s -> holds P s'.
Proof.
  unfold holds. intros -> Hl Hs. apply Forall_app. split; assumption.
Qed.

Lemma outcome_adds {A} (R : result A -> state -> Prop) (c : M A) :
  adds J c -> outcome I J R c.
Proof.
  intros Hc s Hs. left.
  destruct (Hc s) as (l & E & F).
  exact (holds_extended J s _ l E F (holds_weaken s Hs)).
Qed.

Lemma outcome_bind {A B} (R : result B -> state -> Prop) (c : M A) (k : A -> M B) :
  adds I c -> (forall a, outcome I J R (k a)) -> outcome I J R (bind c k).
Proof.
  intros Hc Hk s Hs. unfold bind.
  destruct (Hc s) as (l & E & F).
  pose proof (holds_extended I s _ l E F Hs) as Hs1.
  destruct (c s) as [[a | e] s1]; simpl in *.
  - apply Hk. exact Hs1.
  - left. apply holds_weaken. exact Hs1.
Qed.

Lemma outcome_bind_post {A B} (R1 : result A -> state -> Prop)
    (R : result B -> state -> Prop) (c : M A) (k : A -> M B) :
  outcome I J R1 c ->
  (forall a, adds J (k a)) ->
  (forall res s1, R1 res s1 -> R (fst (resume res k s1)) (snd (resume res k s1))) ->
  outcome I J R (bind c k).
Proof.
  intros Hc Hk Hr s Hs. unfold bind.
  destruct (Hc s Hs) as [Hj | H1].
  - left. destruct (c s) as [[a | e] s1]; simpl in *; [| exact Hj].
    destruct (Hk a s1) as (l & E & F).
    exact (holds_extended J s1 _ l E F Hj).
  - right. specialize (Hr _ _ H1).
    destruct (c s) as [[a | e] s1]; exact Hr.
Qed.

End Outcome.

Lemma uneventful_no_failure (argv : list string) (e : event) :
  uneventful argv e -> no_failure argv e.
Proof. destruct e; simpl; auto. Qed.

Ltac event_condition :=
  try match goal with o : proc_outcome |- _ => destruct o end;
  simpl; try exact I; try reflexivity; try (split; reflexivity);
  try (let H := fresh in intros H; discriminate H).

Ltac weaker :=
  first [exact (fun e H => H) | exact (uneventful_no_failure _)].

(** Steps before the command of interest: each only adds harmless events. *)
Ltac pre_step :=
  lazymatch goal with
  | |- outcome _ _ _ (bind _ _) =>
      apply outcome_bind; [weaker | solve [log_inv; event_condition] | intros ?]
  end.

Lemma vercel_outcome :
  outcome (uneventful ["vercel"; "--prod"]%string) (no_failure ["vercel"; "--prod"]%string)
    (failure_report Vercel ["vercel"; "--prod"]%string) deploy_vercel.
Proof.
  unfold deploy_vercel. repeat pre_step.
  intros s Hs. unfold bind, run, print, ret. simpl.
  destruct (subprocess (env s) (spawned s) ["vercel"; "--prod"]%string)
    as [| rc out err]; simpl.
  - left. constructor; [exact I |].
    eapply holds_weaken; [apply uneventful_no_failure | exact Hs].
  - destruct (Z.eqb_spec rc 0) as [-> | Hrc]; simpl.
    + left. repeat (constructor; [simpl; auto |]).
      eapply holds_weaken; [apply uneventful_no_failure | exact Hs].
    + right. exists rc, out, err, (log s). repeat split; assumption.
Qed.

Ltac harmless :=
  repeat (constructor; [simpl; try exact I; try (intros; congruence) |]).

Lemma heroku_outcome :
  outcome (uneventful ["git"; "push"; "heroku"; "main"]%string)
    (no_failure ["git"; "push"; "heroku"; "main"]%string)
    (failure_report Heroku ["git"; "push"; "heroku"; "main"]%string) deploy_heroku.
Proof.
  unfold deploy_heroku. repeat pre_step.
  lazymatch goal with
  | |- outcome _ _ _ (if negb ?found then _ else _) => destruct found; cbn [negb]
  end;
    [| apply outcome_adds; [weaker | apply adds_ret]].
  repeat pre_step.
  intros s Hs. unfold bind, run, print, ret. simpl.
  destruct (subprocess (env s) (spawned s) ["git"; "push"; "heroku"; "main"]%string)
    as [| rc out err]; simpl.
  - left. harmless.
    eapply holds_weaken; [apply uneventful_no_failure | exact Hs].
  - destruct (Z.eqb_spec rc 0) as [-> | Hrc]; simpl.
    + left.
      destruct (subprocess (env s) (S (spawned s)) ["heroku"; "info"]%string)
        as [| rc2 out2 err2]; simpl; harmless;
        (eapply holds_weaken; [apply uneventful_no_failure | exact Hs]).
    + right. exists rc, out, err, (log s). repeat split; assumption.
Qed.

Lemma railway_outcome :
  outcome (uneventful ["railway"; "up"]%string) (no_failure ["railway"; "up"]%string)
    (failure_report Railway ["railway"; "up"]%string) deploy_railway.
Proof.
  unfold deploy_railway. repeat pre_step.
  intros s Hs. unfold bind, run, print, ret. simpl.
  destruct (subprocess (env s) (spawned s) ["railway"; "up"]%string)
    as [| rc out err]; simpl.
  - left. harmless.
    eapply holds_weaken; [apply uneventful_no_failure | exact Hs].
  - destruct (Z.eqb_spec rc 0) as [-> | Hrc]; simpl.
    + left. harmless.
      eapply holds_weaken; [apply uneventful_no_failure | exact Hs].
    + right. exists rc, out, err, (log s). repeat split; assumption.
Qed.

Lemma same_argv_refl (a : list string) : same_argv a a = true.
Proof.
  induction a as [| x r IH]; simpl; [reflexivity |].
  rewrite String.eqb_refl. exact IH.
Qed.

Lemma routine_outcome (r : routine) (argv : list string) :
  deploy_command r = Some argv ->
  outcome (uneventful argv) (no_failure argv) (failure_report r argv) (call r).
Proof.
  destruct r; simpl; intros H; inversion H; subst.
  - exact vercel_outcome.
  - exact heroku_outcome.
  - exact railway_outcome.
Qed.

(** The failed run recorded by a report is the only failed run of the log. *)
Lemma failed_run_unique (argv : list string) (l0 : list event)
    (rc rc0 : Z) (out out0 err err0 : string) :
  Forall (uneventful argv) l0 ->
  rc <> 0%Z ->
  In (Ran argv None (Exited rc out err)) (Ran argv None (Exited rc0 out0 err0) :: l0) ->
  rc = rc0 /\ err = err0.
Proof.
  intros F Hrc [H | H].
  - inversion H; subst. split; reflexivity.
  - exfalso. rewrite Forall_forall in F. specialize (F _ H). simpl in F.
    apply Hrc, F, same_argv_refl.
Qed.

(** C1, amended. When the deploy command of a routine exits with a non-zero
    status, no line announces a URL as live.  The Vercel routine, which
    reads the status of [vercel --prod], then prints the error text as its
    last line and returns [None].  The Heroku and Railway routines run
    their command ([git push heroku main], [railway up]) with [check=True]:
    [CalledProcessError] leaves the routine, the failed command is the last
    thing the routine did, and no line of the run reports a failed
    deployment.  The Render routine runs no command at all and asks
    nothing. *)
Theorem deploy_failure_handling (r : routine) (s : state) :
  let run := call r (fresh s) in
  match deploy_command r with
  | None => commands (snd run) = [] /\ prompts (snd run) = []
  | Some argv =>
      forall rc out err,
        In (Ran argv None (Exited rc out err)) (log (snd run)) ->
        rc <> 0%Z ->
        (forall line, In (Printed line) (log (snd run)) -> live_line line = false)
        /\ match r with
           | Vercel =>
               fst run = Returned None
               /\ hd_error (log (snd run)) = Some (Printed (failure_line err))
               /\ In (Printed (failure_line err)) (log (snd run))
           | _ =>
               fst run = Raised (CalledProcessError rc argv)
               /\ hd_error (log (snd run)) = Some (Ran argv None (Exited rc out err))
               /\ (forall line,
                     In (Printed line) (log (snd run)) -> failure_said line = false)
           end
  end.
Proof.
  intros run. destruct (deploy_command r) as [argv |] eqn:Hcmd.
  2: { destruct r; try discriminate Hcmd. subst run. split; reflexivity. }
  intros rc out err Hin Hrc.
  destruct (routine_outcome r argv Hcmd (fresh s)) as [Hj | Hrep].
  { constructor. }
  - exfalso. unfold holds in Hj. rewrite Forall_forall in Hj.
    specialize (Hj _ Hin). simpl in Hj. apply Hrc, Hj, same_argv_refl.
  - fold run in Hrep.
    destruct Hrep as (rc0 & out0 & err0 & l0 & Hrc0 & F & Hr).
    destruct r; try discriminate Hcmd.
    + destruct Hr as [Hlog Hres]. rewrite Hlog in *.
      destruct Hin as [Hin | Hin]; [discriminate Hin |].
      assert (Hsame : Exited rc out err = Exited rc0 out0 err0).
      { destruct Hin as [Hin | Hin]; [inversion Hin; reflexivity |].
        exfalso. rewrite Forall_forall in F. specialize (F _ Hin). simpl in F.
        apply Hrc, F, same_argv_refl. }
      inversion Hsame; subst.
      split; [| split; [exact Hres | split; [reflexivity | left; reflexivity]]].
      intros line [Hl | [Hl | Hl]].
      * inversion Hl; subst. reflexivity.
      * discriminate Hl.
      * rewrite Forall_forall in F. exact (proj1 (F _ Hl)).
    + destruct Hr as [Hlog Hres]. rewrite Hlog in *.
      assert (Hsame : Exited rc out err = Exited rc0 out0 err0).
      { destruct Hin as [Hin | Hin]; [inversion Hin; reflexivity |].
        exfalso. rewrite Forall_forall in F. specialize (F _ Hin). simpl in F.
        apply Hrc, F, same_argv_refl. }
      inversion Hsame; subst.
      rewrite Forall_forall in F.
      split; [| split; [exact Hres | split; [reflexivity |]]].
      * intros line [Hl | Hl]; [discriminate Hl | exact (proj1 (F _ Hl))].
      * intros line [Hl | Hl]; [discriminate Hl | exact (proj2 (F _ Hl))].
    + destruct Hr as [Hlog Hres]. rewrite Hlog in *.
      assert (Hsame : Exited rc out err = Exited rc0 out0 err0).
      { destruct Hin as [Hin | Hin]; [inversion Hin; reflexivity |].
        exfalso. rewrite Forall_forall in F. specialize (F _ Hin). simpl in F.
        apply Hrc, F, same_argv_refl. }
      inversion Hsame; subst.
      rewrite Forall_forall in F.
      split; [| split; [exact Hres | split; [reflexivity |]]].
      * intros line [Hl | Hl]; [discriminate Hl | exact (proj1 (F _ Hl))].
      * intros line [Hl | Hl]; [discriminate Hl | exact (proj2 (F _ Hl))].
Qed.

(** ** Exit status *)

Lemma heroku_probe_outcome :
  outcome probe_ok probe_ok (told_missing None) deploy_heroku.
Proof.
  unfold deploy_heroku. repeat pre_step.
  apply outcome_bind_post
    with (R1 := fun res s => res = Returned false /\ In (Printed heroku_missing_line) (log s)).
  - intros s Hs. unfold try_except, bind, run, print, ret. simpl.
    destruct (subprocess (env s) (spawned s) ["heroku"; "--version"]%string)
      as [| rc out err]; simpl.
    + right. split; [reflexivity | left; reflexivity].
    + destruct (Z.eqb_spec rc 0) as [-> | Hrc]; simpl.
      * left. constructor; [simpl; intros _; eauto | exact Hs].
      * right. split; [reflexivity | left; reflexivity].
  - intros found. destruct found; cbn [negb]; log_inv; event_condition.
  - intros res s1 [-> Hin]. simpl. split; [reflexivity | exact Hin].
Qed.

Lemma main_probe_outcome (argv : list string) :
  outcome probe_ok probe_ok (told_missing tt) (main argv).
Proof.
  unfold main.
  apply outcome_bind;
    [ weaker
    | destruct argv as [| ? [| ? ?]]; log_inv; event_condition
    | intros platform ].
  unfold deploy. do 2 pre_step.
  destruct (lookup platform platforms) as [r |];
    [| apply outcome_adds; [weaker | log_inv; event_condition]].
  pre_step.
  destruct r; unfold call.
  - apply outcome_adds; [weaker |]. unfold deploy_vercel. log_inv; event_condition.
  - apply outcome_bind_post with (R1 := told_missing None).
    + exact heroku_probe_outcome.
    + intros url. log_inv; event_condition.
    + intros res s1 [-> Hin]. simpl. split; [reflexivity | exact Hin].
  - apply outcome_adds; [weaker |]. unfold deploy_railway. log_inv; event_condition.
  - apply outcome_adds; [weaker |]. unfold deploy_render. log_inv; event_condition.
Qed.

Lemma main_vercel_outcome (argv : list string) :
  outcome (uneventful ["vercel"; "--prod"]%string) (no_failure ["vercel"; "--prod"]%string)
    told_failed (main argv).
Proof.
  unfold main.
  apply outcome_bind;
    [ weaker
    | destruct argv as [| ? [| ? ?]]; log_inv; event_condition
    | intros platform ].
  unfold deploy. do 2 pre_step.
  destruct (lookup platform platforms) as [r |];
    [| apply outcome_adds; [weaker | log_inv; event_condition]].
  pre_step.
  destruct r; unfold call.
  - apply outcome_bind_post
      with (R1 := failure_report Vercel ["vercel"; "--prod"]%string).
    + exact vercel_outcome.
    + intros url. log_inv; event_condition.
    + intros res s1 (rc & out & err & l0 & Hrc & F & Hlog & ->). simpl.
      exists rc, out, err, l0. repeat split; assumption.
  - apply outcome_adds; [weaker |]. unfold deploy_heroku. log_inv; event_condition.
  - apply outcome_adds; [weaker |]. unfold deploy_railway. log_inv; event_condition.
  - apply outcome_adds; [weaker |]. unfold deploy_render. log_inv; event_condition.
Qed.

Lemma deploy_unsupported (platform : string) (s : state) :
  ~ In platform (map fst platforms) ->
  deploy platform s =
    (Returned tt,
     record (Printed supported_line)
       (record (Printed ("❌ Unsupported platform: " ++ platform)%string)
          (after_header platform s))).
Proof.
  intros H. apply lookup_none in H. unfold deploy. rewrite H. reflexivity.
Qed.

(** C3, amended. The program prints a message and returns, the interpreter
    ending with status zero, in these failures: a platform name given on
    the command line that is not in the table; a failed probe of the
    Heroku tool (absent, or exiting with a non-zero status); a non-zero
    exit of [vercel --prod]. *)
Theorem handled_failures_exit_zero (argv : list string) (w : world) :
  let run := main argv (boot w) in
  (forall a,
     nth_error argv 1 = Some a ->
     ~ In (PyStr.lower a) (map fst platforms) ->
     exit_status (fst run) = 0%Z
     /\ In (Printed ("❌ Unsupported platform: " ++ PyStr.lower a)%string) (log (snd run))
     /\ In (Printed supported_line) (log (snd run)))
  /\ (forall o,
        In (Ran ["heroku"; "--version"]%string None o) (log (snd run)) ->
        (forall out err, o <> Exited 0 out err) ->
        exit_status (fst run) = 0%Z
        /\ In (Printed heroku_missing_line) (log (snd run)))
  /\ (forall rc out err,
        In (Ran ["vercel"; "--prod"]%string None (Exited rc out err)) (log (snd run)) ->
        rc <> 0%Z ->
        exit_status (fst run) = 0%Z
        /\ In (Printed (failure_line err)) (log (snd run))).
Proof.
  intros run. split; [| split].
  - intros a Ha Hnot. subst run.
    destruct argv as [| p [| a' rest]]; simpl in Ha; try discriminate Ha.
    inversion Ha; subst a'.
    assert (E : main (p :: a :: rest) (boot w) = deploy (PyStr.lower a) (boot w))
      by reflexivity.
    rewrite E, (deploy_unsupported _ _ Hnot). simpl.
    split; [reflexivity |]. split; [right; left; reflexivity | left; reflexivity].
  - intros o Hin Hbad.
    destruct (main_probe_outcome argv (boot w)) as [Hj | [Hres Hmsg]].
    { constructor. }
    + exfalso. unfold holds in Hj. rewrite Forall_forall in Hj.
      specialize (Hj _ Hin). simpl in Hj.
      destruct (Hj eq_refl) as (out & err & ->). exact (Hbad out err eq_refl).
    + fold run in Hres, Hmsg. rewrite Hres. split; [reflexivity | exact Hmsg].
  - intros rc out err Hin Hrc.
    destruct (main_vercel_outcome argv (boot w))
      as [Hj | (rc0 & out0 & err0 & l0 & Hrc0 & F & Hlog & Hres)].
    { constructor. }
    + exfalso. unfold holds in Hj. rewrite Forall_forall in Hj.
      specialize (Hj _ Hin). simpl in Hj. exact (Hrc (Hj eq_refl)).
    + fold run in Hlog, Hres. rewrite Hres, Hlog in *.
      destruct Hin as [Hin | Hin]; [discriminate Hin |].
      destruct (failed_run_unique _ _ _ _ _ _ _ _ F Hrc Hin) as [-> ->].
      split; [reflexivity | left; reflexivity].
Qed.

(** * Further properties of the script *)

(** ** The billing provider is contacted on request only *)

Lemma routines_no_billing (r : routine) : adds no_billing (call r).
Proof.
  destruct r; unfold call;
    [ unfold deploy_vercel | unfold deploy_heroku
    | unfold deploy_railway | unfold deploy_render ];
    log_inv; exact I.
Qed.

Lemma summary_no_billing (url : string) : adds no_billing (summary url).
Proof. log_inv; exact I. Qed.

Lemma billing_untouched (s s' : state) (l : list event) :
  log s' = l ++ log s -> Forall no_billing l ->
  exchanges s' = exchanges s /\ api_keys s' = api_keys s.
Proof.
  intros E F. unfold exchanges, api_keys, history. rewrite E, !select_app.
  rewrite !(select_none _ l).
  - rewrite !app_nil_r. split; reflexivity.
  - eapply Forall_impl; [| exact F].
    intros [] H; simpl in *; try reflexivity; contradiction.
  - eapply Forall_impl; [| exact F].
    intros [] H; simpl in *; try reflexivity; contradiction.
Qed.

(** X1. Unless the answer to [Set up Stripe products? (y/N)] is ['y'] once
    stripped and lower-cased, a run of [deploy], whatever the platform name
    and whatever happens later, sets no API key and sends no request to
    the billing provider: the deploy routines never contact it. *)
Theorem no_billing_without_consent (name : string) (s : state)
    (l : string) (rest : list string) :
  unread s = l :: rest ->
  PyStr.lower (PyStr.strip l) <> "y"%string ->
  let out := deploy name (fresh s) in
  exchanges (snd out) = [] /\ api_keys (snd out) = [].
Proof.
  intros Hin Hans out. subst out. unfold deploy.
  destruct (lookup name platforms) as [r |]; [| split; reflexivity].
  assert (Hstep :
            (stripe_step ;;
             url <- call r ;;
             (if truthy_opt url then summary (fmt url) else ret tt))
              (after_header name (fresh s))
            = (url <- call r ;;
               (if truthy_opt url then summary (fmt url) else ret tt))
                (mkState (env s) rest (drawn s) (spawned s) (requested s)
                   (Prompted "Set up Stripe products? (y/N): "
                    :: log (after_header name (fresh s))))).
  { unfold stripe_step, bind at 1 2, input. simpl. rewrite Hin. simpl.
    destruct (String.eqb_spec (PyStr.lower (PyStr.strip l)) "y") as [E | _];
      [contradiction | reflexivity]. }
  assert (Hall : adds no_billing
                   (url <- call r ;;
                    (if truthy_opt url then summary (fmt url) else ret tt))).
  { apply adds_bind; [apply routines_no_billing |].
    intros url. destruct (truthy_opt url); [apply summary_no_billing | apply adds_ret]. }
  change ((print ("🚀 OptionScope Deployment to " ++ PyStr.title name)%string ;;
           print (repeat_str "=" 50) ;;
           stripe_step ;;
           url <- call r ;;
           (if truthy_opt url then summary (fmt url) else ret tt)) (fresh s))
    with ((stripe_step ;;
           url <- call r ;;
           (if truthy_opt url then summary (fmt url) else ret tt))
            (after_header name (fresh s))).
  rewrite Hstep.
  match goal with
  | |- context [snd (?c ?s0)] =>
      destruct (Hall s0) as (l0 & E & F);
      destruct (billing_untouched _ _ _ E F) as [-> ->]
  end.
  split; reflexivity.
Qed.

(** ** End of input *)

(** X2. When fewer than five lines are left on standard input,
    [get_production_env_vars] returns no mapping, not even a partial one:
    [EOFError] leaves it at the first prompt that finds no line, every line
    having been read; the secret is generated only if the three Stripe
    prompts were answered. *)
Theorem env_vars_end_of_input (s : state) :
  length (unread s) < 5 ->
  let out := get_production_env_vars s in
  fst out = Raised EOFError
  /\ unread (snd out) = []
  /\ length (prompts (snd out)) = length (prompts s) + length (unread s) + 1
  /\ drawn (snd out) = drawn s + (if (3 <=? length (unread s))%nat then 32 else 0).
Proof.
  intros Hlen.
  unfold get_production_env_vars, generate_secret_key, token_urlsafe,
    bind, print, input, os_urandom, ret, prompts, history.
  destruct (unread s) as [| l1 [| l2 [| l3 [| l4 [| l5 rest]]]]] eqn:Hin;
    simpl in Hlen; try lia; simpl; rewrite ?Hin; simpl;
    rewrite ?flat_map_app; simpl; rewrite ?length_app; simpl;
    repeat split; try reflexivity; try assumption; lia.
Qed.

(** ** The Heroku routine without its tool *)

(** X3. When the probe [heroku --version] does not find the program, or
    finds it exiting with a non-zero status, [deploy_heroku] returns [None]
    at once: the probe is the only command it runs, it reads no input (no
    app name, no secret is asked for), and it only prints its banner and
    the not-found message. *)
Theorem heroku_missing_returns_early (s : state) :
  (forall out err,
     subprocess (env s) (spawned s) ["heroku"; "--version"]%string <> Exited 0 out err) ->
  let out := deploy_heroku (fresh s) in
  fst out = Returned None
  /\ commands (snd out) = [["heroku"; "--version"]%string]
  /\ unread (snd out) = unread s
  /\ prompts (snd out) = []
  /\ printed (snd out) = ["🚀 Deploying OptionScope to Heroku..."; heroku_missing_line]%string.
Proof.
  intros Hbad.
  unfold deploy_heroku, try_except, bind, enter, print, run, ret. simpl.
  destruct (subprocess (env s) (spawned s) ["heroku"; "--version"]%string)
    as [| rc out err]; simpl.
  - repeat split; reflexivity.
  - destruct (Z.eqb_spec rc 0) as [-> | Hrc]; simpl.
    + exfalso. exact (Hbad out err eq_refl).
    + repeat split; reflexivity.
Qed.

(** ** Routines that return a fixed string *)

Ltac returned_inv H :=
  repeat (apply bind_inv in H;
          destruct H as [(? & ? & _ & H) | (? & _ & H)]; [| discriminate H]).

Lemma railway_returns_sentinel (s s' : state) (u : option string) :
  deploy_railway s = (Returned u, s') -> u = Some (sentinel Railway).
Proof.
  unfold deploy_railway. intros H. returned_inv H.
  inversion H. reflexivity.
Qed.

Lemma render_returns_sentinel (s s' : state) (u : option string) :
  deploy_render s = (Returned u, s') -> u = Some (sentinel Render).
Proof.
  unfold deploy_render. intros H. returned_inv H.
  inversion H. reflexivity.
Qed.

(** X4. The Railway and Render routines never return a URL: whenever one
    of them returns, its value is its fixed string (['Check Railway
    dashboard'], ['Manual setup required']), which is a true value; so
    every run of [deploy] on these platforms that returns has printed the
    closing summary with that string in the place of the live URL. *)
Theorem manual_platforms_report_sentinel (name : string) (r : routine) (s : state) :
  In (name, r) [("railway"%string, Railway); ("render"%string, Render)] ->
  (forall s0 u s', call r s0 = (Returned u, s') -> u = Some (sentinel r))
  /\ (fst (deploy name s) = Returned tt ->
      In (Printed ("🌐 Live URL: " ++ sentinel r)%string) (log (snd (deploy name s)))
      /\ In (Printed ("💰 Pricing Page: " ++ sentinel r ++ "/pricing")%string)
           (log (snd (deploy name s)))).
Proof.
  intros Hin.
  assert (Hret : forall s0 u s', call r s0 = (Returned u, s') -> u = Some (sentinel r)).
  { destruct Hin as [H | [H | []]]; inversion H; subst; simpl.
    - intros s0 u s'. apply railway_returns_sentinel.
    - intros s0 u s'. apply render_returns_sentinel. }
  split; [exact Hret |].
  assert (Hlook : lookup name platforms = Some r).
  { destruct Hin as [H | [H | []]]; inversion H; reflexivity. }
  rewrite (deploy_supported _ _ _ Hlook).
  destruct ((stripe_step ;;
             url <- call r ;;
             (if truthy_opt url then summary (fmt url) else ret tt))
              (after_header name s)) as [res s3] eqn:Hrun.
  simpl. intros ->.
  apply bind_inv in Hrun.
  destruct Hrun as [(? & s1 & _ & Hrun) | (? & _ & Hrun)]; [| discriminate Hrun].
  apply bind_inv in Hrun.
  destruct Hrun as [(url & s2 & Hcall & Hrun) | (? & _ & Hrun)]; [| discriminate Hrun].
  apply Hret in Hcall. subst url.
  assert (Htrue : truthy_opt (Some (sentinel r)) = true).
  { destruct Hin as [H | [H | []]]; inversion H; reflexivity. }
  rewrite Htrue in Hrun. unfold summary, bind, print in Hrun. simpl in Hrun.
  inversion Hrun; subst. simpl.
  split; repeat (first [left; reflexivity | right]).
Qed.

(** ** A billing failure does not stop the deployment *)




(** ** Scraping the URL from a command's output *)

(** The loop [for line in lines: if ...: url = ...; break] keeps the first
    line that answers. *)
Lemma first_match_spec (pick : string -> option string) (lines : list string) :
  match first_match pick lines with
  | Some u =>
      exists pre l post,
        lines = pre ++ l :: post
        /\ pick l = Some u
        /\ forall x, In x pre -> pick x = None
  | None => forall x, In x lines -> pick x = None
  end.
Proof.
  induction lines as [| l r IH]; simpl.
  - intros x [].
  - destruct (pick l) as [u |] eqn:Hl.
    + exists [], l, r. repeat split; [exact Hl | intros x []].
    + destruct (first_match pick r) as [u |].
      * destruct IH as (pre & l' & post & -> & Hp & Hpre).
        exists (l :: pre), l', post. repeat split; [exact Hp |].
        intros x [<- | Hx]; [exact Hl | exact (Hpre x Hx)].
      * intros x [<- | Hx]; [exact Hl | exact (IH x Hx)].
Qed.

Lemma vercel_url_line_some (line u : string) :
  vercel_url_line line = Some u ->
  u = PyStr.strip line
  /\ PyStr.contains "https://" line = true
  /\ PyStr.contains "vercel.app" line = true.
Proof.
  unfold vercel_url_line.
  destruct (PyStr.contains "https://" line), (PyStr.contains "vercel.app" line);
    simpl; intros H; inversion H; repeat split; reflexivity.
Qed.






(** ** The commands of a successful run *)








(** ** The URL returned by the Vercel routine *)

Lemma contains_char (c : ascii) (sub s : string) :
  PyStr.contains (String c sub) s = true ->
  exists pre post, s = (pre ++ String c post)%string.
Proof.
  induction s as [| c0 r IH]; simpl.
  - discriminate.
  - destruct (ascii_dec c c0) as [<- | _].
    + destruct (prefix sub r).
      * intros _. exists EmptyString, r. reflexivity.
      * intros H. destruct (IH H) as (pre & post & ->).
        exists (String c pre), post. reflexivity.
    + intros H. destruct (IH H) as (pre & post & ->).
      exists (String c0 pre), post. reflexivity.
Qed.

(** Stripping a text that holds a visible ASCII character leaves a
    non-empty text. *)
Lemma strip_truthy (c : ascii) (sub s : string) :
  PyStr.is_graphic c = true ->
  PyStr.contains (String c sub) s = true ->
  PyStr.truthy (PyStr.strip s) = true.
Proof.
  intros Hc H. destruct (contains_char _ _ _ H) as (pre & post & ->).
  apply truthy_iff. apply PyStr.strip_graphic. exact Hc.
Qed.

Ltac returned_end H :=
  returned_inv H;
  try match type of H with
      | (if ?b then _ else _) _ = _ => destruct b; returned_inv H
      end.

(** X9. A URL returned by [deploy_vercel] is never the empty string: it
    is the stripped form of a line that holds ['https://'], so the test
    [if url:] of [deploy] succeeds and the closing summary is printed
    whenever the routine returns a URL at all. *)
Theorem vercel_url_is_truthy (s s' : state) (u : string) :
  deploy_vercel s = (Returned (Some u), s') ->
  PyStr.truthy u = true /\ truthy_opt (Some u) = true.
Proof.
  intros H.
  assert (Hu : PyStr.truthy u = true); [| split; [exact Hu | exact Hu]].
  unfold deploy_vercel in H. returned_end H.
  - injection H as Hurl _.
    match type of Hurl with
    | first_match _ ?lines = _ =>
        pose proof (first_match_spec vercel_url_line lines) as Hspec
    end.
    rewrite Hurl in Hspec.
    destruct Hspec as (pre & line & post & _ & Hpick & _).
    destruct (vercel_url_line_some _ _ Hpick) as (-> & Hhttps & _).
    eapply strip_truthy; [| exact Hhttps]. reflexivity.
  - discriminate H.
Qed.

(** ** The menu always selects a supported platform *)

Lemma menu_get_supported (choice : string) : supported (menu_get choice).
Proof.
  unfold supported, menu_get, menu. simpl.
  repeat match goal with
         | |- context [String.eqb choice ?k] => destruct (String.eqb choice k)
         end;
    eexists; reflexivity.
Qed.

Ltac line_condition := simpl; try exact I; try reflexivity.

Lemma deploy_supported_never_unsupported (platform : string) :
  supported platform -> adds not_unsupported (deploy platform).
Proof.
  intros [r Hr]. unfold deploy. rewrite Hr.
  repeat first
    [ match goal with
      | |- adds _ (call ?r0) =>
          destruct r0; unfold call;
          [ unfold deploy_vercel | unfold deploy_heroku
          | unfold deploy_railway | unfold deploy_render ]
      end
    | log_step ];
    line_condition.
Qed.

(** X10. Started without a command-line argument, the program never
    reports an unsupported platform: the menu maps every answer to one of
    the four names of the table, so no line of the run starts with the
    unsupported-platform report. *)
Theorem menu_never_unsupported (argv : list string) :
  length argv <= 1 ->
  (forall choice, supported (menu_get choice))
  /\ adds not_unsupported (main argv).
Proof.
  intros Hargv. split; [exact menu_get_supported |].
  unfold main.
  apply adds_bind_post with (Q := supported).
  - destruct argv as [| p [| a r]]; [| | simpl in Hargv; lia];
      log_inv; line_condition.
  - intros s a s' H.
    destruct argv as [| p [| b r]]; [| | simpl in Hargv; lia];
      returned_inv H; inversion H; apply menu_get_supported.
  - exact deploy_supported_never_unsupported.
Qed.

(** ** Secret values and command lines *)

Ltac fixed_word := solve [simpl; repeat (first [left; reflexivity | right])].

Ltac word_condition :=
  try exact I;
  repeat (apply Forall_cons; [first [fixed_word | idtac] |]);
  try apply Forall_nil.

(** X11. The Vercel routine never puts a value of the environment mapping
    on a command line: every command it runs is made of fixed words and of
    names of variables only, the values being passed on standard input. *)
Theorem vercel_values_off_command_line : adds argv_clean deploy_vercel.
Proof.
  unfold deploy_vercel.
  repeat first [env_step | log_step]; word_condition.
  match goal with
  | Hk : keys_known ?d, Hin : In ?x (Dict.items ?d) |- _ =>
      apply in_or_app; right; exact (Hk x Hin)
  end.
Qed.

End Script.

(** * Concrete runs

    The statements above hold for every implementation of the built-in
    string methods that strips visible ASCII characters to a non-empty
    text, Python's among them.  The runs below use an implementation that
    agrees with Python on ASCII text. *)

Lemma graphic_not_space (c : ascii) :
  PyStr.is_graphic c = true -> PyStr.is_space c = false.
Proof.
  unfold PyStr.is_graphic, PyStr.is_space. intros H.
  apply andb_true_iff in H. destruct H as [H1 H2].
  apply Nat.leb_le in H1, H2.
  assert (E1 : (PyStr.code c <=? 13)%nat = false) by (apply Nat.leb_gt; lia).
  assert (E2 : (PyStr.code c <=? 31)%nat = false) by (apply Nat.leb_gt; lia).
  assert (E3 : (PyStr.code c =? 32)%nat = false) by (apply Nat.eqb_neq; lia).
  cbv zeta. rewrite E1, E2, E3, !andb_false_r. reflexivity.
Qed.

Lemma lstrip_keeps (c : ascii) (pre post : string) :
  PyStr.is_space c = false ->
  exists c' r, PyStr.lstrip (pre ++ String c post) = String c' r
               /\ PyStr.is_space c' = false.
Proof.
  intros Hc. induction pre as [| a pre IH]; simpl.
  - rewrite Hc. exists c, post. split; [reflexivity | exact Hc].
  - destruct (PyStr.is_space a) eqn:Ha; [exact IH |].
    exists a, (pre ++ String c post)%string. split; [reflexivity | exact Ha].
Qed.

Lemma rstrip_keeps (c : ascii) (r : string) :
  PyStr.is_space c = false -> PyStr.rstrip (String c r) <> EmptyString.
Proof.
  intros Hc. simpl. destruct (PyStr.rstrip r); [rewrite Hc |]; discriminate.
Qed.

Lemma ascii_strip_graphic (pre : string) (c : ascii) (post : string) :
  PyStr.is_graphic c = true ->
  PyStr.ascii_strip (pre ++ String c post) <> EmptyString.
Proof.
  intros Hc. apply graphic_not_space in Hc.
  destruct (lstrip_keeps c pre post Hc) as (c' & r & E & Hc').
  unfold PyStr.ascii_strip. rewrite E. apply rstrip_keeps. exact Hc'.
Qed.

#[global] Instance ascii_builtins : PyStr.Builtins := {|
  PyStr.strip := PyStr.ascii_strip;
  PyStr.lower := PyStr.ascii_lower;
  PyStr.title := PyStr.ascii_title;
  PyStr.strip_graphic := ascii_strip_graphic
|}.

Example strip_ex : PyStr.strip "  a b  " = "a b".
Proof. reflexivity. Qed.

Example lower_ex : PyStr.lower "VerCel" = "vercel".
Proof. reflexivity. Qed.

Example title_ex : PyStr.title "hELLO wORLD-x1y" = "Hello World-X1Y".
Proof. reflexivity. Qed.

Example heroku_url_ex :
  heroku_url_line "Web URL:        https://x.herokuapp.com/" = Some "https://x.herokuapp.com/".
Proof. reflexivity. Qed.

Lemma unsupported_platform_reported_witness :
  fst (deploy "netlify" (fresh (boot (mkWorld [] (fun _ => Byte.x00)
                                       (fun _ _ => NotFound)
                                       (fun _ _ => Failed EmptyString)
                                       (fun _ => false)))))
  = Returned tt.
Proof.
  apply (unsupported_platform_reported "netlify").
  simpl. intros [H | [H | [H | [H | []]]]]; discriminate H.
Defined.

Lemma blank_key_skips_setup_witness :
  exchanges
    (snd (setup_stripe_products
            (fresh (boot (mkWorld ["   "%string] (fun _ => Byte.x00)
                            (fun _ _ => NotFound)
                            (fun _ _ => Created "prod_1"%string)
                            (fun _ => false)))))) = [].
Proof.
  apply (blank_key_skips_setup _ "   "%string []); reflexivity.
Defined.

Lemma menu_selects_platform_witness :
  exists s1,
    main ["deploy.py"%string]
      (boot (mkWorld [" 3 "; "n"]%string (fun _ => Byte.x00)
               (fun _ _ => NotFound) (fun _ _ => Failed EmptyString)
               (fun _ => false)))
    = deploy "railway"%string s1.
Proof.
  destruct (menu_selects_platform ["deploy.py"%string]
              (boot (mkWorld [" 3 "; "n"]%string (fun _ => Byte.x00)
                       (fun _ _ => NotFound) (fun _ _ => Failed EmptyString)
                       (fun _ => false)))
              " 3 "%string ["n"%string]) as (s1 & H & _).
  - simpl. lia.
  - reflexivity.
  - exists s1. exact H.
Defined.

Lemma env_vars_contents_witness :
  Dict.get "IEX_API_KEY"
    (env_dict "pk_live_1" "sk_live_1" "whsec_1"
       (next_token 32
          (boot (typing ["pk_live_1 "; "sk_live_1"; "whsec_1"; " "; " iex_1"]%string calm)))
       EmptyString "iex_1")
  = Some "iex_1"%string.
Proof.
  assert (Hrun :
            get_production_env_vars
              (boot (typing ["pk_live_1 "; "sk_live_1"; "whsec_1"; " "; " iex_1"]%string calm))
            = (Returned
                 (env_dict "pk_live_1" "sk_live_1" "whsec_1"
                    (next_token 32
                       (boot (typing ["pk_live_1 "; "sk_live_1"; "whsec_1"; " "; " iex_1"]%string
                                calm)))
                    EmptyString "iex_1"),
               snd (get_production_env_vars
                      (boot (typing ["pk_live_1 "; "sk_live_1"; "whsec_1"; " "; " iex_1"]%string
                               calm)))))
    by (vm_compute; reflexivity).
  destruct (env_vars_contents _ _ _ Hrun)
    as (l1 & l2 & l3 & l4 & l5 & rest & token & Hin
        & _ & _ & _ & _ & _ & _ & _ & _ & _ & _ & _ & _ & H5).
  injection Hin as _ _ _ _ E5 _. subst l5.
  apply H5. discriminate.
Defined.

(** C2, as stated, fails: an answer equal to the placeholder is stored in
    the mapping like any other answer, be it the answer to a required or to
    an optional prompt. *)
Lemma placeholder_kept_in_mapping :
  get_production_env_vars
    (boot (typing ["your-key-here"; "sk_live_1"; "whsec_1"; " "; "your-key-here"]%string calm))
  = (Returned
       [ ("FLASK_ENV", "production");
         ("SECRET_KEY", "AAAAAAAAAAAAAAAAAAAAAAAAAAAAAAAAAAAAAAAAAAA");
         ("STRIPE_PUBLISHABLE_KEY", "your-key-here");
         ("STRIPE_SECRET_KEY", "sk_live_1");
         ("STRIPE_WEBHOOK_SECRET", "whsec_1");
         ("IEX_API_KEY", "your-key-here") ]%string,
     snd (get_production_env_vars
            (boot (typing ["your-key-here"; "sk_live_1"; "whsec_1"; " "; "your-key-here"]%string
                     calm))))
  /\ ~ (forall s d s',
          get_production_env_vars s = (Returned d, s') ->
          ~ In placeholder (Dict.values d)).
Proof.
  assert (Hrun :
            get_production_env_vars
              (boot (typing ["your-key-here"; "sk_live_1"; "whsec_1"; " "; "your-key-here"]%string
                       calm))
            = (Returned
                 [ ("FLASK_ENV", "production");
                   ("SECRET_KEY", "AAAAAAAAAAAAAAAAAAAAAAAAAAAAAAAAAAAAAAAAAAA");
                   ("STRIPE_PUBLISHABLE_KEY", "your-key-here");
                   ("STRIPE_SECRET_KEY", "sk_live_1");
                   ("STRIPE_WEBHOOK_SECRET", "whsec_1");
                   ("IEX_API_KEY", "your-key-here") ]%string,
               snd (get_production_env_vars
                      (boot (typing ["your-key-here"; "sk_live_1"; "whsec_1"; " ";
                                     "your-key-here"]%string calm)))))
    by (vm_compute; reflexivity).
  split; [exact Hrun |].
  intros H. apply (H _ _ _ Hrun).
  unfold Dict.values, placeholder. simpl. do 2 right. left. reflexivity.
Qed.

Lemma placeholder_filtered_at_push_witness :
  adds (pushes_real Vercel) (call Vercel).
Proof.
  assert (Hrun :
            get_production_env_vars
              (boot (typing ["pk_live_1"; "sk_live_1"; "whsec_1"; " "; "your-key-here"]%string
                       calm))
            = (Returned
                 [ ("FLASK_ENV", "production");
                   ("SECRET_KEY", "AAAAAAAAAAAAAAAAAAAAAAAAAAAAAAAAAAAAAAAAAAA");
                   ("STRIPE_PUBLISHABLE_KEY", "pk_live_1");
                   ("STRIPE_SECRET_KEY", "sk_live_1");
                   ("STRIPE_WEBHOOK_SECRET", "whsec_1");
                   ("IEX_API_KEY", "your-key-here") ]%string,
               snd (get_production_env_vars
                      (boot (typing ["pk_live_1"; "sk_live_1"; "whsec_1"; " ";
                                     "your-key-here"]%string calm)))))
    by (vm_compute; reflexivity).
  exact (proj2 (placeholder_filtered_at_push _ _ _ Hrun) Vercel).
Defined.

(** In a run where the placeholder is in the mapping, the Vercel routine
    pushes every other non-empty value and skips the placeholder. *)
Example vercel_skips_placeholder :
  commands
    (snd (deploy_vercel
            (boot (typing ["pk_live_1"; "sk_live_1"; "whsec_1"; " "; "your-key-here"]%string
                     calm))))
  = [ ["vercel"; "--version"];
      ["cp"; "requirements-vercel.txt"; "requirements.txt"];
      ["vercel"; "env"; "add"; "FLASK_ENV"];
      ["vercel"; "env"; "add"; "SECRET_KEY"];
      ["vercel"; "env"; "add"; "STRIPE_PUBLISHABLE_KEY"];
      ["vercel"; "env"; "add"; "STRIPE_SECRET_KEY"];
      ["vercel"; "env"; "add"; "STRIPE_WEBHOOK_SECRET"];
      ["vercel"; "--prod"] ]%string.
Proof. vm_compute. reflexivity. Qed.

Example all_products_created :
  requests (snd (setup_stripe_products (boot (typing ["sk_live_1"]%string calm))))
  = plan ["id_0"; "id_1"; "id_2"; "id_3"; "id_4"; "id_5"]%string.
Proof. vm_compute. reflexivity. Qed.

Example third_call_refused :
  let run := setup_stripe_products
               (boot (refusing 2 "card error" (typing ["sk_live_1"]%string calm))) in
  fst run = Returned tt
  /\ requests (snd run) = firstn 3 (plan ["id_0"; "id_1"]%string)
  /\ last (printed (snd run)) EmptyString = "❌ Error setting up Stripe: card error"%string.
Proof. vm_compute. repeat split; reflexivity. Qed.

Lemma stripe_setup_creates_or_stops_witness :
  api_keys (snd (setup_stripe_products
                   (fresh (boot (refusing 4 "rate limit" (typing [" sk_live_1 "]%string calm))))))
  = ["sk_live_1"%string].
Proof.
  assert (Hkey : PyStr.strip " sk_live_1 "%string <> EmptyString)
    by (vm_compute; discriminate).
  exact (proj1 (proj2 (stripe_setup_creates_or_stops
           (boot (refusing 4 "rate limit" (typing [" sk_live_1 "]%string calm)))
           " sk_live_1 "%string [] eq_refl Hkey eq_refl))).
Defined.

(** Without the provider's module, the import ends the routine before the
    key is set or any request is sent. *)
Example setup_without_module_raises :
  let run := setup_stripe_products (boot (bare (typing ["sk_live_1"]%string calm))) in
  fst run = Raised (ModuleNotFoundError "stripe")
  /\ exchanges (snd run) = []
  /\ api_keys (snd run) = [].
Proof. vm_compute. repeat split; reflexivity. Qed.


Example heroku_run_enters_heroku_only :
  entered
    (snd (deploy "heroku"%string
            (boot (typing ["y"; "sk_live_1"; "app"; "pk"; "sk"; "wh"; " "; " "]%string calm))))
  = [Heroku].
Proof. vm_compute. reflexivity. Qed.

(** C1, as stated, fails for the Heroku routine: when [git push heroku main]
    exits with status 1, the routine neither returns [None] nor prints the
    error text; [CalledProcessError] leaves it. *)
Lemma heroku_push_failure_raises :
  let w := breaking ["git"; "push"; "heroku"; "main"]%string 1 "rejected"
             (typing ["app"; "pk_live_1"; "sk_live_1"; "whsec_1"; " "; " "]%string calm) in
  let run := deploy_heroku (boot w) in
  In (Ran ["git"; "push"; "heroku"; "main"]%string None (Exited 1 EmptyString "rejected"))
    (log (snd run))
  /\ fst run = Raised (CalledProcessError 1 ["git"; "push"; "heroku"; "main"]%string)
  /\ fst run <> Returned None
  /\ forallb (fun line => negb (PyStr.contains "rejected" line)) (printed (snd run)) = true.
Proof.
  assert (Hres :
            fst (deploy_heroku
                   (boot (breaking ["git"; "push"; "heroku"; "main"]%string 1 "rejected"
                            (typing ["app"; "pk_live_1"; "sk_live_1"; "whsec_1"; " "; " "]%string
                               calm))))
            = Raised (CalledProcessError 1 ["git"; "push"; "heroku"; "main"]%string))
    by (vm_compute; reflexivity).
  cbv zeta. rewrite Hres.
  split; [vm_compute; left; reflexivity |].
  split; [reflexivity |].
  split; [discriminate |].
  vm_compute. reflexivity.
Qed.

Lemma deploy_failure_handling_witness :
  fst (call Vercel
         (fresh (boot (breaking ["vercel"; "--prod"]%string 1 "build failed"
                         (typing ["pk_live_1"; "sk_live_1"; "whsec_1"; " "; " "]%string
                            calm)))))
  = Returned None.
Proof.
  assert (Hin :
            In (Ran ["vercel"; "--prod"]%string None (Exited 1 EmptyString "build failed"))
              (log (snd (call Vercel
                           (fresh (boot (breaking ["vercel"; "--prod"]%string 1 "build failed"
                                           (typing ["pk_live_1"; "sk_live_1"; "whsec_1"; " "; " "]%string
                                              calm))))))))
    by (vm_compute; right; left; reflexivity).
  assert (Hrc : 1%Z <> 0%Z) by discriminate.
  exact (proj1 (proj2 (deploy_failure_handling Vercel _ 1%Z
                         EmptyString "build failed"%string Hin Hrc))).
Defined.

(** The Railway routine behaves as the Heroku routine does. *)
Example railway_up_failure_raises :
  let run := deploy_railway
               (boot (breaking ["railway"; "up"]%string 1 "build failed"
                        (typing ["pk_live_1"; "sk_live_1"; "whsec_1"; " "; " "]%string calm))) in
  fst run = Raised (CalledProcessError 1 ["railway"; "up"]%string)
  /\ forallb (fun line => negb (failure_said line)) (printed (snd run)) = true.
Proof. vm_compute. split; reflexivity. Qed.

(** C3, as stated, fails: a command run with [check=True] that exits with a
    non-zero status raises [CalledProcessError], which nothing catches; the
    interpreter ends with status 1. *)
Lemma railway_login_failure_exits_nonzero :
  let w := breaking ["railway"; "login"]%string 1 "not logged in"
             (typing ["n"]%string calm) in
  let run := main ["deploy.py"; "railway"]%string (boot w) in
  In (Ran ["railway"; "login"]%string None (Exited 1 EmptyString "not logged in"))
    (log (snd run))
  /\ fst run = Raised (CalledProcessError 1 ["railway"; "login"]%string)
  /\ exit_status (fst run) = 1%Z.
Proof.
  assert (Hres :
            fst (main ["deploy.py"; "railway"]%string
                   (boot (breaking ["railway"; "login"]%string 1 "not logged in"
                            (typing ["n"]%string calm))))
            = Raised (CalledProcessError 1 ["railway"; "login"]%string))
    by (vm_compute; reflexivity).
  cbv zeta. rewrite Hres.
  split; [vm_compute; left; reflexivity |].
  split; reflexivity.
Qed.

(** A missing tool whose installation fails ends the same way. *)
Example missing_npm_exits_nonzero :
  exit_status
    (fst (main ["deploy.py"; "vercel"]%string
            (boot (missing ["npm"; "install"; "-g"; "vercel"]%string
                     (missing ["vercel"; "--version"]%string (typing ["n"]%string calm))))))
  = 1%Z.
Proof. vm_compute. reflexivity. Qed.

Example heroku_missing_run :
  let run := main ["deploy.py"; "HEROKU"]%string
               (boot (missing ["heroku"; "--version"]%string (typing ["n"]%string calm))) in
  exit_status (fst run) = 0%Z
  /\ printed (snd run)
     = [ "🚀 OptionScope Deployment to Heroku";
         repeat_str "=" 50;
         "🚀 Deploying OptionScope to Heroku...";
         heroku_missing_line ]%string.
Proof. vm_compute. split; reflexivity. Qed.

Lemma handled_failures_exit_zero_witness :
  exit_status (fst (main ["deploy.py"; "Netlify"]%string (boot calm))) = 0%Z.
Proof.
  assert (Hname : ~ In (PyStr.lower "Netlify") (map fst platforms)).
  { simpl. intros [H | [H | [H | [H | []]]]]; discriminate H. }
  exact (proj1 (proj1 (handled_failures_exit_zero ["deploy.py"; "Netlify"]%string calm)
                  "Netlify"%string eq_refl Hname)).
Defined.

Lemma no_billing_without_consent_witness :
  exchanges (snd (deploy "render"%string (fresh (boot (typing ["yes"]%string calm))))) = [].
Proof.
  assert (Hans : PyStr.lower (PyStr.strip "yes") <> "y"%string) by discriminate.
  exact (proj1 (no_billing_without_consent "render"%string
                  (boot (typing ["yes"]%string calm)) "yes"%string [] eq_refl Hans)).
Defined.

Lemma env_vars_end_of_input_witness :
  fst (get_production_env_vars (boot (typing ["pk_live_1"; "sk_live_1"]%string calm)))
  = Raised EOFError.
Proof.
  assert (Hlen : length (unread (boot (typing ["pk_live_1"; "sk_live_1"]%string calm))) < 5)
    by (simpl; lia).
  exact (proj1 (env_vars_end_of_input _ Hlen)).
Defined.

Lemma heroku_missing_returns_early_witness :
  fst (deploy_heroku (fresh (boot (missing ["heroku"; "--version"]%string calm))))
  = Returned None.
Proof.
  assert (Hbad : forall out err,
             subprocess (env (boot (missing ["heroku"; "--version"]%string calm)))
               (spawned (boot (missing ["heroku"; "--version"]%string calm)))
               ["heroku"; "--version"]%string <> Exited 0 out err)
    by (intros out err; discriminate).
  exact (proj1 (heroku_missing_returns_early _ Hbad)).
Defined.

Lemma manual_platforms_report_sentinel_witness :
  In (Printed "🌐 Live URL: Manual setup required"%string)
    (log (snd (deploy "render"%string (boot (typing ["n"]%string calm))))).
Proof.
  assert (Hin : In ("render"%string, Render)
                  [("railway"%string, Railway); ("render"%string, Render)])
    by (right; left; reflexivity).
  assert (Hret : fst (deploy "render"%string (boot (typing ["n"]%string calm))) = Returned tt)
    by (vm_compute; reflexivity).
  exact (proj1 (proj2 (manual_platforms_report_sentinel "render"%string Render
                         (boot (typing ["n"]%string calm)) Hin) Hret)).
Defined.


(** Without the provider's module the Stripe step raises, and the
    deployment does not start. *)
Example missing_module_stops_deploy :
  let run := deploy "render"%string
               (boot (bare (typing ["y"; "sk_live_1"]%string calm))) in
  fst run = Raised (ModuleNotFoundError "stripe")
  /\ entered (snd run) = [].
Proof. vm_compute. split; reflexivity. Qed.


Example vercel_scrapes_first_url :
  first_match vercel_url_line
    (PyStr.split PyStr.nl
       ("Inspect: https://vercel.com/acme/app" ++ PyStr.nl
        ++ "  Production: https://app-one.vercel.app  " ++ PyStr.nl
        ++ "Alias: https://app.vercel.app")%string)
  = Some "Production: https://app-one.vercel.app"%string.
Proof. vm_compute. reflexivity. Qed.



Example vercel_success_runs :
  runs
    (snd (deploy_vercel
            (boot (typing ["pk_live_1"; " "; "your-key-here"; " "; "iex_1"]%string calm))))
  = [ (["vercel"; "--version"], None);
      (["cp"; "requirements-vercel.txt"; "requirements.txt"], None);
      (["vercel"; "env"; "add"; "FLASK_ENV"], Some "production");
      (["vercel"; "env"; "add"; "SECRET_KEY"],
       Some "AAAAAAAAAAAAAAAAAAAAAAAAAAAAAAAAAAAAAAAAAAA");
      (["vercel"; "env"; "add"; "STRIPE_PUBLISHABLE_KEY"], Some "pk_live_1");
      (["vercel"; "env"; "add"; "IEX_API_KEY"], Some "iex_1");
      (["vercel"; "--prod"], None) ]%string.
Proof. vm_compute. reflexivity. Qed.

Lemma vercel_url_is_truthy_witness :
  PyStr.truthy "https://app.vercel.app" = true.
Proof.
  assert (Hrun :
            deploy_vercel
              (boot (mkWorld ["pk_live_1"; "sk_live_1"; "whsec_1"; " "; " "]%string
                       (fun _ => Byte.x00)
                       (fun _ _ => Exited 0 "  https://app.vercel.app " EmptyString)
                       (fun _ _ => Failed EmptyString)
                       (fun _ => false)))
            = (Returned (Some "https://app.vercel.app"%string),
               snd (deploy_vercel
                      (boot (mkWorld ["pk_live_1"; "sk_live_1"; "whsec_1"; " "; " "]%string
                               (fun _ => Byte.x00)
                               (fun _ _ => Exited 0 "  https://app.vercel.app " EmptyString)
                               (fun _ _ => Failed EmptyString)
                               (fun _ => false))))))
    by (vm_compute; reflexivity).
  exact (proj1 (vercel_url_is_truthy _ _ _ Hrun)).
Defined.

(** The Heroku routine has no such guarantee: a ['Web URL:'] label with
    nothing after it gives the empty string, which [deploy] takes for no
    URL. *)
Example heroku_url_can_be_empty :
  heroku_url_line "Web URL:   " = Some EmptyString
  /\ truthy_opt (heroku_url_line "Web URL:   ") = false.
Proof. split; reflexivity. Qed.

Lemma menu_never_unsupported_witness :
  adds not_unsupported (main ["deploy.py"%string]).
Proof.
  assert (Hargv : length ["deploy.py"%string] <= 1) by (simpl; lia).
  exact (proj2 (menu_never_unsupported ["deploy.py"%string] Hargv)).
Defined.

(** The Heroku and Railway routines do put them there. *)
Example heroku_values_on_command_line :
  In ["heroku"; "config:set"; "STRIPE_SECRET_KEY=sk_live_1"]%string
    (commands
       (snd (deploy_heroku
               (boot (typing ["app"; "pk_live_1"; "sk_live_1"; "whsec_1"; " "; " "]%string
                        calm))))).
Proof. vm_compute. do 6 right. left. reflexivity. Qed.
